(** * cc-statusline: display modules of the status line

    A shallow embedding of [cc_statusline/modules/model.py] and
    [cc_statusline/modules/time_modules.py], followed by the properties the
    specification states about them.

    Conventions of the embedding.
    - A module object is a record of its attributes; a method that assigns
      attributes returns the new record.  Attributes assigned once in
      [__init__] and never again (thresholds, bar width, window length) are
      constants.
    - The context snapshot is a [dict[str, Any]]; the keys the modules read
      are record fields of type [option], [None] meaning that the key is
      missing.  Numeric values are integers, text values are strings.
    - [datetime.now()] is an explicit argument [now] of every method that
      reads the clock.
    - The arithmetic of [model.py] goes through binary64 ([a / b] on two
      [int]s is a float division): it is run on Rocq's primitive floats.
      The float values of [time_modules.py] ([total_seconds()], the usage
      percentage) are modelled by exact rationals.
    - Strings are byte strings; case folding, white space and digits are the
      ASCII ones.  Tooltips are not modelled. *)

From Stdlib Require Import ZArith QArith Qround String Ascii List Bool Lia.
From Stdlib Require Import Floats Uint63 DecimalString.
Import ListNotations.

Open Scope Z_scope.
Open Scope string_scope.

(** ** Python primitives *)

Module Py.

(** [str(z)] and [f"{z}"] for an [int]. *)
Definition str_of_int (z : Z) : string :=
  NilZero.string_of_int (Z.to_int z).

(** [bool(s)] for a [str]. *)
Definition truthy_str (s : string) : bool :=
  match s with
  | EmptyString => false
  | String _ _ => true
  end.

(** [bool(x)] for an optional integer: [None] and [0] are falsy. *)
Definition truthy_opt_int (x : option Z) : bool :=
  match x with
  | None => false
  | Some z => negb (Z.eqb z 0)
  end.

(** [d.get(key, default)]. *)
Definition get {A : Type} (x : option A) (default : A) : A :=
  match x with
  | Some a => a
  | None => default
  end.

Definition is_upper (c : ascii) : bool :=
  let n := nat_of_ascii c in (65 <=? n)%nat && (n <=? 90)%nat.

Definition lower_char (c : ascii) : ascii :=
  if is_upper c then ascii_of_nat (nat_of_ascii c + 32) else c.

(** [s.lower()]. *)
Fixpoint lower (s : string) : string :=
  match s with
  | EmptyString => EmptyString
  | String c s' => String (lower_char c) (lower s')
  end.

(** [sub in s]. *)
Fixpoint contains (sub s : string) : bool :=
  match s with
  | EmptyString => prefix sub EmptyString
  | String _ s' => prefix sub s || contains sub s'
  end.

(** [c.isdigit()]. *)
Definition isdigit (c : ascii) : bool :=
  let n := nat_of_ascii c in (48 <=? n)%nat && (n <=? 57)%nat.

(** The characters [str.split()] splits at: tab, line feed, vertical tab,
    form feed, carriage return, the four separators 0x1c-0x1f, space. *)
Definition isspace (c : ascii) : bool :=
  let n := nat_of_ascii c in
  ((9 <=? n)%nat && (n <=? 13)%nat) || ((28 <=? n)%nat && (n <=? 32)%nat).

(** [cur] is the word being read, if one has been started. *)
Fixpoint split_from (cur : option string) (s : string) : list string :=
  match s with
  | EmptyString =>
      match cur with
      | Some w => [w]
      | None => []
      end
  | String c s' =>
      if isspace c then
        match cur with
        | Some w => w :: split_from None s'
        | None => split_from None s'
        end
      else
        split_from (Some (get cur EmptyString ++ String c EmptyString)) s'
  end.

(** [s.split()]: the maximal runs of non-space characters. *)
Definition split (s : string) : list string := split_from None s.

Fixpoint repeat_str (s : string) (n : nat) : string :=
  match n with
  | O => EmptyString
  | S n' => s ++ repeat_str s n'
  end.

(** [s * n]: empty when [n] is negative. *)
Definition str_mul (s : string) (n : Z) : string := repeat_str s (Z.to_nat n).

(** [float(z)]; exact for [|z| <= 2^53]. *)
Definition float_of_int (z : Z) : float :=
  if Z.ltb z 0 then PrimFloat.opp (PrimFloat.of_uint63 (Uint63.of_Z (- z)))
  else PrimFloat.of_uint63 (Uint63.of_Z z).

(** [a / b] on two [int]s: the correctly rounded quotient.  For operands
    below [2^53] in magnitude it is the binary64 quotient of the two
    conversions. *)
Definition truediv (a b : Z) : float :=
  PrimFloat.div (float_of_int a) (float_of_int b).

(** [x * n] for a float and an [int]. *)
Definition mul_int (x : float) (n : Z) : float :=
  PrimFloat.mul x (float_of_int n).

(** [int(x)] for a float: truncation toward zero.  Python raises on an
    infinity or a NaN; no call below reaches one and [0] stands there. *)
Definition int_of_float (x : float) : Z :=
  match Prim2SF x with
  | S754_finite s m e =>
      let mag := if Z.leb 0 e then Z.pos m * 2 ^ e else Z.pos m / 2 ^ (- e) in
      if s then - mag else mag
  | _ => 0
  end.

(** [int(q)] for a rational standing for a float. *)
Definition int_of_Q (q : Q) : Z := Z.quot (Qnum q) (Z.pos (Qden q)).

(** Rounding to the nearest integer, ties to even, as [format(x, ".0f")]
    does. *)
Definition round_half_even (q : Q) : Z :=
  let f := Qfloor q in
  match Qcompare (Qminus q (inject_Z f)) (1 # 2) with
  | Lt => f
  | Gt => f + 1
  | Eq => if Z.even f then f else f + 1
  end.

(** [f"{q:.0f}"]: a negative value that rounds to zero keeps its sign. *)
Definition format_f0 (q : Q) : string :=
  let r := round_half_even q in
  if Z.eqb r 0 && Z.ltb (Qnum q) 0 then "-0" else str_of_int r.

End Py.

(** ** [cc_statusline.modules.base] *)

(** Modelled from the spec: [ModuleStatus], declared in [base.py], is one of
    SUCCESS, WARNING, ERROR, DISABLED. *)
Inductive ModuleStatus : Type :=
| SUCCESS
| WARNING
| ERROR
| DISABLED.

(** Modelled from the spec: [ModuleOutput], declared in [base.py], carries a
    text, an icon, a semantic color tag and a status. *)
Record ModuleOutput : Type := mkOutput {
  text : string;
  icon : string;
  color : string;
  status : ModuleStatus
}.

(** ** The context snapshot *)

Record cost_data : Type := mkCost {
  context_percentage : option Z;
  next_reset_time : option Z;
  block_start_time : option Z
}.

Record tokens_data : Type := mkTokens {
  used : option Z;
  limit : option Z
}.

Record context : Type := mkContext {
  model : option string;
  plan : option string;
  cost : option cost_data;
  tokens : option tokens_data
}.

(** The empty dict [{}] at each of the three types. *)
Definition empty_cost : cost_data := mkCost None None None.
Definition empty_tokens : tokens_data := mkTokens None None.
Definition empty_context : context := mkContext None None None None.

(** ** [model.py] *)

Module ModelModule.

Record t : Type := mk { _model : string; _context : context }.

Definition init : t := mk "" empty_context.

(** The loop [for part in parts: if part[0].isdigit(): return ...]; a part
    of [split()] is never empty. *)
Fixpoint version_loop (parts : list string) : string :=
  match parts with
  | [] => "Claude"
  | part :: rest =>
      match part with
      | String c _ => if Py.isdigit c then "Claude " ++ part else version_loop rest
      | EmptyString => version_loop rest
      end
  end.

Definition _extract_model_name (ctx : context) : string :=
  let model := Py.get (model ctx) "" in
  if negb (Py.truthy_str model) then ""
  else
    let model_lower := Py.lower model in
    if Py.contains "sonnet" model_lower then "Sonnet"
    else if Py.contains "opus" model_lower then "Opus"
    else if Py.contains "haiku" model_lower then "Haiku"
    else if Py.contains "claude" model_lower then version_loop (Py.split model)
    else model.

Definition set_context (self : t) (ctx : context) : t :=
  mk (_extract_model_name ctx) ctx.

Definition refresh (self : t) : t := self.

Definition get_output (self : t) : ModuleOutput :=
  if negb (Py.truthy_str (_model self)) then mkOutput "" "" "" DISABLED
  else mkOutput (_model self) "🤖" "purple" SUCCESS.

Definition is_available (self : t) : bool := Py.truthy_str (_model self).

End ModelModule.

Module PlanModule.

Record t : Type := mk { _plan : string; _context : context }.

Definition init : t := mk "" empty_context.

Definition set_context (self : t) (ctx : context) : t :=
  mk (Py.get (plan ctx) "") ctx.

Definition refresh (self : t) : t := self.

Definition get_output (self : t) : ModuleOutput :=
  if negb (Py.truthy_str (_plan self)) then mkOutput "" "" "" DISABLED
  else
    let plan_lower := Py.lower (_plan self) in
    if Py.contains "pro" plan_lower then mkOutput (_plan self) "⭐" "gold" SUCCESS
    else if Py.contains "free" plan_lower then mkOutput (_plan self) "🆓" "blue" SUCCESS
    else mkOutput (_plan self) "📋" "dim" SUCCESS.

Definition is_available (self : t) : bool := Py.truthy_str (_plan self).

End PlanModule.

Module ContextPercentModule.

Record t : Type := mk { _percentage : Z; _context : context }.

Definition init : t := mk 0 empty_context.

Definition _warning_threshold : Z := 70.
Definition _critical_threshold : Z := 90.

Definition _calculate_percentage (ctx : context) : Z :=
  let cost_data := Py.get (cost ctx) empty_cost in
  match context_percentage cost_data with
  | Some p => p
  | None =>
      let tokens_data := Py.get (tokens ctx) empty_tokens in
      let used := Py.get (used tokens_data) 0 in
      let limit := Py.get (limit tokens_data) 0 in
      if Z.ltb 0 limit then Py.int_of_float (Py.mul_int (Py.truediv used limit) 100)
      else 0
  end.

Definition set_context (self : t) (ctx : context) : t :=
  mk (_calculate_percentage ctx) ctx.

Definition refresh (self : t) : t :=
  mk (_calculate_percentage (_context self)) (_context self).

Definition get_output (self : t) : ModuleOutput :=
  if Z.eqb (_percentage self) 0 then mkOutput "" "" "" DISABLED
  else
    let text := Py.str_of_int (_percentage self) ++ "%" in
    if Z.leb _critical_threshold (_percentage self) then mkOutput text "🧠" "red" ERROR
    else if Z.leb _warning_threshold (_percentage self) then mkOutput text "🧠" "yellow" WARNING
    else mkOutput text "🧠" "green" SUCCESS.

Definition is_available (self : t) : bool := Z.ltb 0 (_percentage self).

End ContextPercentModule.

Module ContextBarModule.

Record t : Type := mk { _percentage : Z; _context : context }.

Definition init : t := mk 0 empty_context.

Definition _bar_width : Z := 10.
Definition _warning_threshold : Z := 70.
Definition _critical_threshold : Z := 90.

Definition _calculate_percentage (ctx : context) : Z :=
  let cost_data := Py.get (cost ctx) empty_cost in
  match context_percentage cost_data with
  | Some p => p
  | None =>
      let tokens_data := Py.get (tokens ctx) empty_tokens in
      let used := Py.get (used tokens_data) 0 in
      let limit := Py.get (limit tokens_data) 0 in
      if Z.ltb 0 limit then Py.int_of_float (Py.mul_int (Py.truediv used limit) 100)
      else 0
  end.

(** The local [filled] of [_render_bar]. *)
Definition filled (percentage : Z) : Z :=
  Py.int_of_float (Py.mul_int (Py.truediv percentage 100) _bar_width).

(** The local [empty] of [_render_bar]. *)
Definition empty (percentage : Z) : Z := _bar_width - filled percentage.

(** The local [bar] of [_render_bar]. *)
Definition bar (percentage : Z) : string :=
  Py.str_mul "█" (filled percentage) ++ Py.str_mul "░" (empty percentage).

Definition _render_bar (percentage : Z) : string :=
  "[" ++ bar percentage ++ "] " ++ Py.str_of_int percentage ++ "%".

Definition set_context (self : t) (ctx : context) : t :=
  mk (_calculate_percentage ctx) ctx.

Definition refresh (self : t) : t :=
  mk (_calculate_percentage (_context self)) (_context self).

Definition get_output (self : t) : ModuleOutput :=
  if Z.eqb (_percentage self) 0 then mkOutput "" "" "" DISABLED
  else
    let bar_text := _render_bar (_percentage self) in
    if Z.leb _critical_threshold (_percentage self) then mkOutput bar_text "🧠" "red" ERROR
    else if Z.leb _warning_threshold (_percentage self) then mkOutput bar_text "🧠" "yellow" WARNING
    else mkOutput bar_text "🧠" "green" SUCCESS.

Definition is_available (self : t) : bool := Z.ltb 0 (_percentage self).

End ContextBarModule.

(** ** [time_modules.py] *)

(** A naive local [datetime] is its number of microseconds since a fixed
    midnight, a [timedelta] a number of microseconds; their arithmetic is
    exact, as in Python.  The bounds of the two types (years 1 to 9999) are
    not modelled. *)
Definition datetime : Type := Z.
Definition timedelta : Type := Z.

(** The exceptions [datetime.fromtimestamp] can raise. *)
Inductive exn : Type :=
| ValueError
| TypeError
| OverflowError
| OSError.

Inductive outcome (A : Type) : Type :=
| Returns (a : A)
| Raises (e : exn).

Arguments Returns {A} a.
Arguments Raises {A} e.

Module Time.

Definition us_per_second : Z := 1000000.
Definition us_per_day : Z := 86400 * us_per_second.

(** [timedelta(days=d)], [timedelta(hours=h)], [timedelta(seconds=s)]. *)
Definition of_days (d : Z) : timedelta := d * us_per_day.
Definition of_hours (h : Z) : timedelta := h * 3600 * us_per_second.


(** [d.total_seconds()]. *)
Definition total_seconds (d : timedelta) : Q := Qmake d 1000000.

(** [datetime(now.year, now.month, now.day)]. *)
Definition midnight (now : datetime) : datetime := now - now mod us_per_day.

(** [a < b] on the rationals standing for floats. *)
Definition ltb (a b : Q) : bool := negb (Qle_bool b a).

(** [min(a, b)]: the first argument unless the second is smaller. *)
Definition min (a b : Q) : Q := if ltb b a then b else a.

End Time.

Module ResetTimerModule.

Record t : Type := mk { _reset_time : option datetime; _context : context }.

Definition init : t := mk None empty_context.

Section Clock.

(** [datetime.fromtimestamp], which depends on the platform and on the local
    time zone. *)
Variable fromtimestamp : Z -> outcome datetime.

(** [except (ValueError, TypeError): pass] lets the other exceptions
    through. *)
Definition _extract_reset_time (ctx : context) (now : datetime)
  : outcome (option datetime) :=
  let cost_data := Py.get (cost ctx) empty_cost in
  let reset_timestamp := next_reset_time cost_data in
  let next_midnight := Time.midnight now + Time.of_days 1 in
  if Py.truthy_opt_int reset_timestamp then
    match fromtimestamp (Py.get reset_timestamp 0) with
    | Returns d => Returns (Some d)
    | Raises ValueError | Raises TypeError => Returns (Some next_midnight)
    | Raises e => Raises e
    end
  else Returns (Some next_midnight).

(** The object after the call, and the exception that left it, if any:
    [_context] is assigned before [_extract_reset_time] runs. *)
Definition set_context (self : t) (ctx : context) (now : datetime)
  : t * option exn :=
  match _extract_reset_time ctx now with
  | Returns r => (mk r ctx, None)
  | Raises e => (mk (_reset_time self) ctx, Some e)
  end.

End Clock.

Definition _calculate_remaining (self : t) (now : datetime) : option timedelta :=
  match _reset_time self with
  | None => None
  | Some reset =>
      let remaining := reset - now in
      if Time.ltb (Time.total_seconds remaining) 0 then Some 0
      else Some remaining
  end.

Definition _format_duration (duration : timedelta) : string :=
  let total_seconds := Py.int_of_Q (Time.total_seconds duration) in
  let hours := total_seconds / 3600 in
  let remainder := total_seconds mod 3600 in
  let minutes := remainder / 60 in
  let seconds := remainder mod 60 in
  if Z.ltb 0 hours then
    Py.str_of_int hours ++ "h " ++ Py.str_of_int minutes ++ "m"
  else if Z.ltb 0 minutes then
    Py.str_of_int minutes ++ "m " ++ Py.str_of_int seconds ++ "s"
  else
    Py.str_of_int seconds ++ "s".

Definition refresh (self : t) : t := self.

Definition get_output (self : t) (now : datetime) : ModuleOutput :=
  match _calculate_remaining self now with
  | None => mkOutput "" "" "" DISABLED
  | Some remaining =>
      let formatted := _format_duration remaining in
      let total_seconds := Time.total_seconds remaining in
      if Time.ltb total_seconds 300 then mkOutput formatted "🔄" "red" WARNING
      else if Time.ltb total_seconds 1800 then mkOutput formatted "🔄" "yellow" SUCCESS
      else mkOutput formatted "🔄" "green" SUCCESS
  end.

Definition is_available (self : t) : bool :=
  match _reset_time self with
  | Some _ => true
  | None => false
  end.

End ResetTimerModule.

Module BlockUsageModule.

Record t : Type := mk { _block_start : option datetime; _context : context }.

Definition init : t := mk None empty_context.

Definition _block_duration_hours : Z := 5.

Section Clock.

Variable fromtimestamp : Z -> outcome datetime.

(** Without a truthy [block_start_time] the attribute [_block_start] keeps
    its value. *)
Definition set_context (self : t) (ctx : context) : t * option exn :=
  let cost_data := Py.get (cost ctx) empty_cost in
  let block_start := block_start_time cost_data in
  if Py.truthy_opt_int block_start then
    match fromtimestamp (Py.get block_start 0) with
    | Returns d => (mk (Some d) ctx, None)
    | Raises ValueError | Raises TypeError => (mk None ctx, None)
    | Raises e => (mk (_block_start self) ctx, Some e)
    end
  else (mk (_block_start self) ctx, None).

End Clock.

Definition _calculate_usage (self : t) (now : datetime) : Q :=
  match _block_start self with
  | None => 0
  | Some block_start =>
      let elapsed := now - block_start in
      let total_duration := Time.of_hours _block_duration_hours in
      if Time.ltb (Time.total_seconds elapsed) 0 then 0
      else
        let percentage :=
          (Time.total_seconds elapsed / Time.total_seconds total_duration * 100)%Q in
        Time.min percentage 100
  end.

Definition bar_width : Z := 8.

(** The locals [filled], [empty] and [bar] of [_render_bar]. *)
Definition filled (percentage : Q) : Z :=
  Py.int_of_Q (percentage / 100 * inject_Z bar_width)%Q.

Definition empty (percentage : Q) : Z := bar_width - filled percentage.

Definition bar (percentage : Q) : string :=
  Py.str_mul "█" (filled percentage) ++ Py.str_mul "░" (empty percentage).

Definition _render_bar (percentage : Q) : string :=
  "[" ++ bar percentage ++ "] " ++ Py.format_f0 percentage ++ "%".

Definition refresh (self : t) : t := self.

Definition is_none {A : Type} (x : option A) : bool :=
  match x with
  | None => true
  | Some _ => false
  end.

Definition get_output (self : t) (now : datetime) : ModuleOutput :=
  let usage := _calculate_usage self now in
  if Qle_bool usage 0 && is_none (_block_start self) then mkOutput "" "" "" DISABLED
  else
    let formatted := _render_bar usage in
    if Qle_bool 90 usage then mkOutput formatted "⏳" "red" WARNING
    else if Qle_bool 70 usage then mkOutput formatted "⏳" "yellow" SUCCESS
    else mkOutput formatted "⏳" "green" SUCCESS.

Definition is_available (self : t) : bool := negb (is_none (_block_start self)).

End BlockUsageModule.

(** ** MCP server discovery

    [mcp_status.py] is not among the sources; its unit tests are.  The
    definitions of this module follow the specification and those tests. *)

Module MCPStatusModule.

(** Modelled from the spec: the entry of one discovered server, with the
    fields [name] and [status] of [MCPServerInfo] that discovery through the
    status command fills in. *)
Record MCPServerInfo : Type := mkServer { name : string; status : string }.

(** Modelled from the spec: what running the external status command gives:
    the command is missing, it times out, or it exits with a return code and
    its standard output. *)
Inductive run_result : Type :=
| FileNotFound
| Timeout
| Completed (returncode : Z) (stdout : string).

(** Modelled from the spec: what loading the JSON configuration file gives: a
    decoding error, or the [mcpServers] mapping, each entry with its
    [command] and [args]. *)
Inductive config_load : Type :=
| JSONDecodeError
| Loaded (mcpServers : list (string * (string * list string))).

Definition running_marker : string := " (running)".

(** [Some p] when [s] is [p] followed by [suffix]. *)
Fixpoint strip_suffix (suffix s : string) : option string :=
  if String.eqb s suffix then Some EmptyString
  else
    match s with
    | EmptyString => None
    | String c s' =>
        match strip_suffix suffix s' with
        | Some p => Some (String c p)
        | None => None
        end
    end.

(** The lines of [s], cut at line feeds; [cur] is the line being read. *)
Fixpoint lines_from (cur : string) (s : string) : list string :=
  match s with
  | EmptyString => [cur]
  | String c s' =>
      if Ascii.eqb c "010"%char then cur :: lines_from EmptyString s'
      else lines_from (cur ++ String c EmptyString) s'
  end.

Definition nonempty_lines (s : string) : list string :=
  filter Py.truthy_str (lines_from EmptyString s).

(** Modelled from the spec: a line is [<name>[ (running)]]; the status is
    "unknown" when the running marker is absent. *)
Definition parse_line (line : string) : MCPServerInfo :=
  match strip_suffix running_marker line with
  | Some server => mkServer server "running"
  | None => mkServer line "unknown"
  end.

(** Modelled from the spec: discovery through the status command, one server
    per output line; a missing or failing command gives no server. *)
Definition _get_from_claude_command (r : run_result) : list MCPServerInfo :=
  match r with
  | Completed 0 stdout => map parse_line (nonempty_lines stdout)
  | _ => []
  end.

Fixpoint join (sep : string) (l : list string) : string :=
  match l with
  | [] => EmptyString
  | [x] => x
  | x :: rest => x ++ sep ++ join sep rest
  end.

(** Modelled from the spec: discovery through the configuration file; the
    display command is the space-joined [command] and [args]; malformed JSON
    gives no server. *)
Definition _parse_mcp_config (c : config_load) : list (string * string) :=
  match c with
  | JSONDecodeError => []
  | Loaded servers =>
      map (fun e => (fst e, join " " (fst (snd e) :: snd (snd e)))) servers
  end.

End MCPStatusModule.

(** ** Registration of the modules

    Both files end with [_register_modules()], which goes through a list of
    names and classes and registers and enables those the registry does not
    know yet.  [ModuleRegistry] is declared in [registry.py], which is not
    among the sources: the registry and the three operations called on it
    are parameters, and the global registry is passed explicitly. *)

Module Registration.

(** The classes that are registered. *)
Inductive module_class : Type :=
| ModelModuleClass
| PlanModuleClass
| ContextPercentModuleClass
| ContextBarModuleClass
| ResetTimerModuleClass
| BlockUsageModuleClass.

Section Registry.

Variable registry : Type.
Variable has_module : string -> registry -> bool.
Variable register : string -> module_class -> registry -> registry.
Variable enable : string -> registry -> registry.

(** The loop [for name, module_class in modules: if not has_module(name):
    register(name, module_class); enable(name)]. *)
Fixpoint register_loop (modules : list (string * module_class)) (r : registry)
  : registry :=
  match modules with
  | [] => r
  | (name, module_class) :: rest =>
      if negb (has_module name r) then
        register_loop rest (enable name (register name module_class r))
      else register_loop rest r
  end.

(** The list [modules] of [model.py]. *)
Definition model_modules : list (string * module_class) :=
  [("model", ModelModuleClass); ("plan", PlanModuleClass);
   ("context_pct", ContextPercentModuleClass);
   ("context_bar", ContextBarModuleClass)].

(** The list [modules] of [time_modules.py]. *)
Definition time_modules : list (string * module_class) :=
  [("reset_timer", ResetTimerModuleClass); ("block_usage", BlockUsageModuleClass)].

(** [_register_modules] of [model.py]. *)
Definition _register_modules_model (r : registry) : registry :=
  register_loop model_modules r.

(** [_register_modules] of [time_modules.py]. *)
Definition _register_modules_time (r : registry) : registry :=
  register_loop time_modules r.

End Registry.

End Registration.

(** * Properties *)

(** ** Snapshots and specification-side definitions *)

(** The snapshot [{"tokens": {"used": u, "limit": l}}]. *)
Definition tokens_snapshot (u l : Z) : context :=
  mkContext None None None (Some (mkTokens (Some u) (Some l))).

(** The snapshot [{"cost": {"context_percentage": p}}]. *)
Definition percentage_snapshot (p : Z) : context :=
  mkContext None None (Some (mkCost (Some p) None None)) None.

(** The snapshot [{"model": s}]. *)
Definition model_snapshot (s : string) : context :=
  mkContext (Some s) None None None.

(** The snapshot [{"cost": {"next_reset_time": ts}}]. *)
Definition reset_snapshot (ts : Z) : context :=
  mkContext None None (Some (mkCost None (Some ts) None)) None.

(** The percentage in the words of the specification:
    [floor(100 * used / limit)]. *)
Definition floor_percentage (used limit : Z) : Z := 100 * used / limit.

(** The filled count of a bar in the words of the specification:
    [floor(width * percentage / 100)]. *)
Definition floor_filled (width percentage : Z) : Z := width * percentage / 100.

(** The output of a module that has nothing to show. *)
Definition disabled_output : ModuleOutput := mkOutput "" "" "" DISABLED.

(** A token that begins with a digit. *)
Definition begins_with_digit (s : string) : bool :=
  match s with
  | String c _ => Py.isdigit c
  | EmptyString => false
  end.

(** The whole percentages 0, 1, ..., 100. *)
Definition whole_percentages : list Z := map Z.of_nat (seq 0 101).

(** The output of the status command in the unit test
    [test_detect_servers_from_command]. *)
Definition test_stdout : string :=
  "server1 (running)" ++ String "010" "server2" ++
  String "010" "server3 (running)" ++ String "010" "".

(** A [fromtimestamp] for a platform in UTC with a 64-bit [time_t]: a
    timestamp outside [time_t] raises [OverflowError], as the Python
    documentation says; the others convert. *)
Definition fromtimestamp_time_t (ts : Z) : outcome datetime :=
  if Z.leb (- 2 ^ 63) ts && Z.ltb ts (2 ^ 63) then Returns (ts * Time.us_per_second)
  else Raises OverflowError.

(** The states a [ContextPercentModule] object goes through: it is
    created, and then [set_context] and [refresh] are called on it. *)
Inductive percent_reachable : ContextPercentModule.t -> Prop :=
| percent_created : percent_reachable ContextPercentModule.init
| percent_set_context (self : ContextPercentModule.t) (ctx : context) :
    percent_reachable self ->
    percent_reachable (ContextPercentModule.set_context self ctx)
| percent_refresh (self : ContextPercentModule.t) :
    percent_reachable self ->
    percent_reachable (ContextPercentModule.refresh self).

(** The states a [ContextBarModule] object goes through. *)
Inductive bar_reachable : ContextBarModule.t -> Prop :=
| bar_created : bar_reachable ContextBarModule.init
| bar_set_context (self : ContextBarModule.t) (ctx : context) :
    bar_reachable self ->
    bar_reachable (ContextBarModule.set_context self ctx)
| bar_refresh (self : ContextBarModule.t) :
    bar_reachable self ->
    bar_reachable (ContextBarModule.refresh self).

(** A string with a white-space character in it. *)
Fixpoint has_space (s : string) : bool :=
  match s with
  | EmptyString => false
  | String c s' => Py.isspace c || has_space s'
  end.

(** [w] occurs in [s] as a run of consecutive characters. *)
Definition occurs_in (w s : string) : Prop :=
  exists pre post : string, s = pre ++ w ++ post.

(** The block-usage module after it was created and given the snapshots of
    the list, one [set_context] call each, in this order. *)
Definition block_usage_after (fromtimestamp : Z -> outcome datetime)
           (snapshots : list context) : BlockUsageModule.t :=
  fold_left
    (fun self ctx => fst (BlockUsageModule.set_context fromtimestamp self ctx))
    snapshots BlockUsageModule.init.

(** A snapshot without a block-start time: the key is missing, or 0. *)
Definition lacks_block_start (ctx : context) : Prop :=
  Py.truthy_opt_int (block_start_time (Py.get (cost ctx) empty_cost)) = false.

(** The whole percentages -1000, ..., 1000. *)
Definition wide_percentages : list Z :=
  map (fun n => Z.of_nat n - 1000) (seq 0 2001).

(** A registry kept as the list of the registered names with their classes
    and the list of the enabled names, in the order they were enabled. *)
Definition list_registry : Type :=
  (list (string * Registration.module_class) * list string)%type.

Definition list_has_module (name : string) (r : list_registry) : bool :=
  existsb (String.eqb name) (map fst (fst r)).

Definition list_register (name : string) (c : Registration.module_class)
           (r : list_registry) : list_registry :=
  (fst r ++ [(name, c)], snd r)%list.

Definition list_enable (name : string) (r : list_registry) : list_registry :=
  if existsb (String.eqb name) (snd r) then r else (fst r, snd r ++ [name])%list.

(** ** The context percentage *)

(** The percentage text and the bar compute the percentage the same way. *)
Lemma calculate_percentage_shared (ctx : context) :
  ContextBarModule._calculate_percentage ctx =
  ContextPercentModule._calculate_percentage ctx.
Proof. reflexivity. Qed.

(** A pre-computed [cost.context_percentage] is returned as it is, whatever
    the token counts are. *)
Lemma calculate_percentage_precomputed (ctx : context) (c : cost_data) (p : Z) :
  cost ctx = Some c -> context_percentage c = Some p ->
  ContextPercentModule._calculate_percentage ctx = p.
Proof.
  intros Hc Hp. unfold ContextPercentModule._calculate_percentage.
  rewrite Hc. simpl. rewrite Hp. reflexivity.
Qed.

(** Without a pre-computed percentage and without a positive limit the
    percentage is 0. *)
Lemma calculate_percentage_no_limit (ctx : context) :
  context_percentage (Py.get (cost ctx) empty_cost) = None ->
  Py.get (limit (Py.get (tokens ctx) empty_tokens)) 0 <= 0 ->
  ContextPercentModule._calculate_percentage ctx = 0.
Proof.
  intros Hp Hl. unfold ContextPercentModule._calculate_percentage.
  rewrite Hp.
  destruct (Z.ltb_spec 0 (Py.get (limit (Py.get (tokens ctx) empty_tokens)) 0)).
  - lia.
  - reflexivity.
Qed.

(** C1, at the snapshot [{"tokens": {"used": 58000, "limit": 200000}}]:
    [58000 / 200000] is the binary64 number next below 0.29, its product with
    100 rounds to 28.999999999999996 and [int] truncates it, so both modules
    compute 28 where [floor(100 * used / limit)] is 29. *)
Theorem calculate_percentage_below_floor :
  ContextPercentModule._calculate_percentage (tokens_snapshot 58000 200000) = 28 /\
  ContextBarModule._calculate_percentage (tokens_snapshot 58000 200000) = 28 /\
  floor_percentage 58000 200000 = 29.
Proof. vm_compute. repeat split; reflexivity. Qed.

(** ** The three tiers *)

(** C2, as stated, fails at percentage 0: it is below 70, and both modules
    return the DISABLED output with an empty color instead of SUCCESS and
    green. *)
Lemma zero_percentage_has_no_tier :
  0 < 70 /\
  status (ContextPercentModule.get_output (ContextPercentModule.mk 0 empty_context))
    = DISABLED /\
  color (ContextPercentModule.get_output (ContextPercentModule.mk 0 empty_context))
    = "" /\
  status (ContextBarModule.get_output (ContextBarModule.mk 0 empty_context))
    = DISABLED /\
  color (ContextBarModule.get_output (ContextBarModule.mk 0 empty_context))
    = "".
Proof. repeat split; reflexivity. Qed.

(** C2, amended: the two modules agree on the status and the color at every
    percentage; at 0 both are DISABLED with an empty color; at every other
    percentage [p], [p < 70] gives SUCCESS and green, [70 <= p < 90] gives
    WARNING and yellow, [90 <= p] gives ERROR and red. *)
Theorem threshold_tiers (p : Z) (c1 c2 : context) :
  let o1 := ContextPercentModule.get_output (ContextPercentModule.mk p c1) in
  let o2 := ContextBarModule.get_output (ContextBarModule.mk p c2) in
  (status o1 = status o2 /\ color o1 = color o2) /\
  (p = 0 -> status o1 = DISABLED /\ color o1 = "") /\
  (p <> 0 -> p < 70 -> status o1 = SUCCESS /\ color o1 = "green") /\
  (70 <= p < 90 -> status o1 = WARNING /\ color o1 = "yellow") /\
  (90 <= p -> status o1 = ERROR /\ color o1 = "red").
Proof.
  unfold ContextPercentModule.get_output, ContextBarModule.get_output.
  unfold ContextPercentModule._critical_threshold,
    ContextPercentModule._warning_threshold,
    ContextBarModule._critical_threshold,
    ContextBarModule._warning_threshold.
  cbn [ContextPercentModule._percentage ContextBarModule._percentage].
  destruct (Z.eqb_spec p 0) as [H0 | H0];
    [| destruct (Z.leb_spec 90 p) as [H90 | H90];
       [| destruct (Z.leb_spec 70 p) as [H70 | H70]]];
    cbn [status color]; repeat split; intros; try reflexivity; lia.
Qed.

Lemma threshold_tiers_witness :
  status (ContextPercentModule.get_output (ContextPercentModule.mk 69 empty_context))
    = SUCCESS /\
  status (ContextPercentModule.get_output (ContextPercentModule.mk 70 empty_context))
    = WARNING /\
  status (ContextPercentModule.get_output (ContextPercentModule.mk 90 empty_context))
    = ERROR.
Proof.
  split; [| split].
  - apply (threshold_tiers 69 empty_context empty_context); lia.
  - apply (threshold_tiers 70 empty_context empty_context); lia.
  - apply (threshold_tiers 90 empty_context empty_context); lia.
Defined.

(** ** Absent signals *)

(** C3, as stated, fails at the snapshot
    [{"tokens": {"used": 0, "limit": 200000}}]: the percentage computed from
    these valid inputs is 0 and the module renders it as it renders the
    empty snapshot: DISABLED, nothing to show, unavailable. *)
Lemma zero_percent_rendered_as_no_data :
  let valid := ContextPercentModule.set_context ContextPercentModule.init
                 (tokens_snapshot 0 200000) in
  let nodata := ContextPercentModule.set_context ContextPercentModule.init
                  empty_context in
  ContextPercentModule._percentage valid = 0 /\
  ContextPercentModule.get_output valid = ContextPercentModule.get_output nodata /\
  status (ContextPercentModule.get_output valid) = DISABLED /\
  ContextPercentModule.is_available valid = false /\
  ContextPercentModule.is_available nodata = false.
Proof. vm_compute. repeat split; reflexivity. Qed.

(** A model module without a model name is disabled and unavailable. *)
Lemma model_absent (self : ModelModule.t) (ctx : context) :
  Py.get (model ctx) "" = "" ->
  ModelModule.get_output (ModelModule.set_context self ctx) = disabled_output /\
  ModelModule.is_available (ModelModule.set_context self ctx) = false.
Proof.
  intros H.
  unfold ModelModule.get_output, ModelModule.is_available, ModelModule.set_context,
    ModelModule._extract_model_name.
  rewrite H. split; reflexivity.
Qed.

(** A plan module without a plan is disabled and unavailable. *)
Lemma plan_absent (self : PlanModule.t) (ctx : context) :
  Py.get (plan ctx) "" = "" ->
  PlanModule.get_output (PlanModule.set_context self ctx) = disabled_output /\
  PlanModule.is_available (PlanModule.set_context self ctx) = false.
Proof.
  intros H.
  unfold PlanModule.get_output, PlanModule.is_available, PlanModule.set_context.
  cbn [PlanModule._plan]. rewrite H. split; reflexivity.
Qed.

(** A percentage of 0, however it was obtained, disables both context
    modules. *)
Lemma percentage_zero_disabled (ctx1 ctx2 : context) :
  ContextPercentModule.get_output (ContextPercentModule.mk 0 ctx1) = disabled_output /\
  ContextPercentModule.is_available (ContextPercentModule.mk 0 ctx1) = false /\
  ContextBarModule.get_output (ContextBarModule.mk 0 ctx2) = disabled_output /\
  ContextBarModule.is_available (ContextBarModule.mk 0 ctx2) = false.
Proof. repeat split; reflexivity. Qed.

(** A block-usage module that holds no block start is disabled and
    unavailable at every time. *)
Lemma block_start_absent (self : BlockUsageModule.t) (now : datetime) :
  BlockUsageModule._block_start self = None ->
  BlockUsageModule.get_output self now = disabled_output /\
  BlockUsageModule.is_available self = false.
Proof.
  intros H.
  unfold BlockUsageModule.get_output, BlockUsageModule.is_available,
    BlockUsageModule._calculate_usage.
  rewrite H. split; reflexivity.
Qed.

(** Snapshots without a block-start time leave a module that holds no block
    start without one. *)
Lemma set_context_without_block_start
      (fromtimestamp : Z -> outcome datetime) (snapshots : list context)
      (self : BlockUsageModule.t) :
  Forall lacks_block_start snapshots ->
  BlockUsageModule._block_start self = None ->
  BlockUsageModule._block_start
    (fold_left
       (fun self ctx => fst (BlockUsageModule.set_context fromtimestamp self ctx))
       snapshots self) = None.
Proof.
  intros H. revert self. induction H as [| ctx rest Hctx _ IH]; intros self Hs.
  - exact Hs.
  - cbn [fold_left]. apply IH.
    unfold BlockUsageModule.set_context. unfold lacks_block_start in Hctx.
    rewrite Hctx. exact Hs.
Qed.

(** C3, amended: after [set_context] with a snapshot that has no model name,
    no plan, or neither a pre-computed percentage nor a positive token
    limit, and for a block-usage module that was given only snapshots
    without a block-start time, [get_output] is the DISABLED output with
    empty text, icon and color and [is_available] is false; and a percentage
    of exactly 0 is rendered in that same way, whatever it was computed
    from.  What the block-usage module shows on a snapshot without a
    block-start time after an earlier snapshot carried one is left out. *)
Theorem absent_signal_disables :
  (forall (self : ModelModule.t) (ctx : context),
     Py.get (model ctx) "" = "" ->
     ModelModule.get_output (ModelModule.set_context self ctx) = disabled_output /\
     ModelModule.is_available (ModelModule.set_context self ctx) = false) /\
  (forall (self : PlanModule.t) (ctx : context),
     Py.get (plan ctx) "" = "" ->
     PlanModule.get_output (PlanModule.set_context self ctx) = disabled_output /\
     PlanModule.is_available (PlanModule.set_context self ctx) = false) /\
  (forall (self : ContextPercentModule.t) (ctx : context),
     context_percentage (Py.get (cost ctx) empty_cost) = None ->
     Py.get (limit (Py.get (tokens ctx) empty_tokens)) 0 <= 0 ->
     ContextPercentModule.get_output (ContextPercentModule.set_context self ctx)
       = disabled_output /\
     ContextPercentModule.is_available (ContextPercentModule.set_context self ctx)
       = false) /\
  (forall (self : ContextBarModule.t) (ctx : context),
     context_percentage (Py.get (cost ctx) empty_cost) = None ->
     Py.get (limit (Py.get (tokens ctx) empty_tokens)) 0 <= 0 ->
     ContextBarModule.get_output (ContextBarModule.set_context self ctx)
       = disabled_output /\
     ContextBarModule.is_available (ContextBarModule.set_context self ctx)
       = false) /\
  (forall (fromtimestamp : Z -> outcome datetime) (snapshots : list context)
          (now : datetime),
     Forall lacks_block_start snapshots ->
     BlockUsageModule.get_output (block_usage_after fromtimestamp snapshots) now
       = disabled_output /\
     BlockUsageModule.is_available (block_usage_after fromtimestamp snapshots)
       = false) /\
  (forall (self : ContextPercentModule.t),
     ContextPercentModule._percentage self = 0 ->
     ContextPercentModule.get_output self = disabled_output /\
     ContextPercentModule.is_available self = false) /\
  (forall (self : ContextBarModule.t),
     ContextBarModule._percentage self = 0 ->
     ContextBarModule.get_output self = disabled_output /\
     ContextBarModule.is_available self = false).
Proof.
  split; [exact model_absent |].
  split; [exact plan_absent |].
  split.
  { intros self ctx Hp Hl.
    unfold ContextPercentModule.set_context.
    rewrite (calculate_percentage_no_limit ctx Hp Hl).
    split; apply (percentage_zero_disabled ctx ctx). }
  split.
  { intros self ctx Hp Hl.
    unfold ContextBarModule.set_context.
    rewrite calculate_percentage_shared.
    rewrite (calculate_percentage_no_limit ctx Hp Hl).
    split; apply (percentage_zero_disabled ctx ctx). }
  split.
  { intros fromtimestamp snapshots now H. apply block_start_absent.
    apply set_context_without_block_start; [exact H | reflexivity]. }
  split.
  - intros [p c] H. cbn in H. subst p.
    split; apply (percentage_zero_disabled c c).
  - intros [p c] H. cbn in H. subst p.
    split; apply (percentage_zero_disabled c c).
Qed.

Lemma absent_signal_disables_witness :
  ModelModule.get_output (ModelModule.set_context ModelModule.init empty_context)
    = disabled_output /\
  PlanModule.is_available (PlanModule.set_context PlanModule.init empty_context)
    = false /\
  ContextPercentModule.get_output
    (ContextPercentModule.set_context ContextPercentModule.init (tokens_snapshot 5 0))
    = disabled_output /\
  ContextBarModule.is_available
    (ContextBarModule.set_context ContextBarModule.init (tokens_snapshot 5 0))
    = false /\
  BlockUsageModule.get_output
    (block_usage_after fromtimestamp_time_t [empty_context; tokens_snapshot 5 0]) 0
    = disabled_output /\
  ContextPercentModule.is_available (ContextPercentModule.mk 0 empty_context) = false /\
  ContextBarModule.get_output (ContextBarModule.mk 0 empty_context) = disabled_output.
Proof.
  destruct absent_signal_disables as (Hm & Hp & Hc & Hb & Hu & Hz & Hw).
  split; [apply (Hm ModelModule.init empty_context); reflexivity |].
  split; [apply (Hp PlanModule.init empty_context); reflexivity |].
  split; [apply (Hc ContextPercentModule.init (tokens_snapshot 5 0));
          [reflexivity | cbn; lia] |].
  split; [apply (Hb ContextBarModule.init (tokens_snapshot 5 0));
          [reflexivity | cbn; lia] |].
  split; [apply (Hu fromtimestamp_time_t [empty_context; tokens_snapshot 5 0] 0);
          repeat constructor |].
  split; [apply (Hz (ContextPercentModule.mk 0 empty_context)); reflexivity |].
  apply (Hw (ContextBarModule.mk 0 empty_context)); reflexivity.
Defined.

(** A snapshot without a block-start time that follows one with it: the
    module keeps the earlier block start, so it stays available and shows
    the usage of the earlier window, where the other modules reset on a
    missing key. *)
Lemma stale_block_start_is_shown :
  let started := mkContext None None (Some (mkCost None None (Some 3600))) None in
  let self := block_usage_after fromtimestamp_time_t [started; empty_context] in
  let now := 3600 * Time.us_per_second + Time.of_hours 1 in
  lacks_block_start empty_context /\
  BlockUsageModule.is_available self = true /\
  status (BlockUsageModule.get_output self now) = SUCCESS /\
  text (BlockUsageModule.get_output self now) = "[█░░░░░░░] 20%".
Proof. vm_compute. repeat split; reflexivity. Qed.

(** ** Availability and the disabled status *)

Lemma model_unavailable_disabled (self : ModelModule.t) :
  ModelModule.is_available self = false ->
  status (ModelModule.get_output self) = DISABLED.
Proof.
  unfold ModelModule.is_available, ModelModule.get_output.
  intros H. rewrite H. reflexivity.
Qed.

Lemma plan_unavailable_disabled (self : PlanModule.t) :
  PlanModule.is_available self = false ->
  status (PlanModule.get_output self) = DISABLED.
Proof.
  unfold PlanModule.is_available, PlanModule.get_output.
  intros H. rewrite H. reflexivity.
Qed.

Lemma reset_timer_unavailable_disabled (self : ResetTimerModule.t) (now : datetime) :
  ResetTimerModule.is_available self = false ->
  status (ResetTimerModule.get_output self now) = DISABLED.
Proof.
  unfold ResetTimerModule.is_available, ResetTimerModule.get_output,
    ResetTimerModule._calculate_remaining.
  destruct (ResetTimerModule._reset_time self); [discriminate | reflexivity].
Qed.

Lemma block_usage_unavailable_disabled (self : BlockUsageModule.t) (now : datetime) :
  BlockUsageModule.is_available self = false ->
  status (BlockUsageModule.get_output self now) = DISABLED.
Proof.
  unfold BlockUsageModule.is_available. intros H.
  destruct (BlockUsageModule._block_start self) eqn:E; [discriminate |].
  destruct (block_start_absent self now E) as [-> _]. reflexivity.
Qed.

(** The two context modules keep the agreement as long as the percentage is
    not negative. *)
Lemma context_unavailable_disabled (p : Z) (c1 c2 : context) :
  0 <= p ->
  (ContextPercentModule.is_available (ContextPercentModule.mk p c1) = false ->
   status (ContextPercentModule.get_output (ContextPercentModule.mk p c1)) = DISABLED) /\
  (ContextBarModule.is_available (ContextBarModule.mk p c2) = false ->
   status (ContextBarModule.get_output (ContextBarModule.mk p c2)) = DISABLED).
Proof.
  intros Hp.
  unfold ContextPercentModule.is_available, ContextBarModule.is_available.
  cbn [ContextPercentModule._percentage ContextBarModule._percentage].
  split; intros H; apply Z.ltb_ge in H; assert (p = 0) as -> by lia; reflexivity.
Qed.

(** C4, at the snapshot [{"cost": {"context_percentage": -5}}]: after
    [set_context], [is_available] is false ([-5 > 0] fails) while
    [get_output] skips its [== 0] guard and returns SUCCESS with the text
    "-5%"; the bar module does the same. *)
Theorem negative_percentage_breaks_agreement :
  let pct := ContextPercentModule.set_context ContextPercentModule.init
               (percentage_snapshot (-5)) in
  let bar := ContextBarModule.set_context ContextBarModule.init
               (percentage_snapshot (-5)) in
  ContextPercentModule.is_available pct = false /\
  status (ContextPercentModule.get_output pct) = SUCCESS /\
  text (ContextPercentModule.get_output pct) = "-5%" /\
  ContextBarModule.is_available bar = false /\
  status (ContextBarModule.get_output bar) = SUCCESS /\
  text (ContextBarModule.get_output bar) = "[░░░░░░░░░░] -5%".
Proof. vm_compute. repeat split; reflexivity. Qed.

(** ** The countdown of the reset timer *)

(** [total_seconds()] is negative exactly when the duration is. *)
Lemma total_seconds_negative (d : timedelta) :
  Time.ltb (Time.total_seconds d) 0 = Z.ltb d 0.
Proof.
  unfold Time.ltb, Time.total_seconds, Qle_bool. cbn [Qnum Qden].
  destruct (Z.leb_spec (0 * Z.pos 1000000) (d * 1)), (Z.ltb_spec d 0);
    cbn [negb]; try reflexivity; lia.
Qed.






(** ** The model name *)

(** The loop returns the first part that begins with a digit. *)
Lemma version_loop_first (pre post : list string) (v : string) :
  Forall (fun w => begins_with_digit w = false) pre ->
  begins_with_digit v = true ->
  ModelModule.version_loop (pre ++ v :: post)%list = "Claude " ++ v.
Proof.
  intros Hpre Hv. induction Hpre as [| w pre Hw _ IH].
  - cbn [app ModelModule.version_loop].
    destruct v as [| c v]; [discriminate |].
    cbn [begins_with_digit] in Hv. rewrite Hv. reflexivity.
  - cbn [app ModelModule.version_loop].
    destruct w as [| c w]; [exact IH |].
    cbn [begins_with_digit] in Hw. rewrite Hw. exact IH.
Qed.

(** Without such a part the loop falls through to "Claude". *)
Lemma version_loop_none (parts : list string) :
  Forall (fun w => begins_with_digit w = false) parts ->
  ModelModule.version_loop parts = "Claude".
Proof.
  intros H. induction H as [| w parts Hw _ IH]; [reflexivity |].
  cbn [ModelModule.version_loop].
  destruct w as [| c w]; [exact IH |].
  cbn [begins_with_digit] in Hw. rewrite Hw. exact IH.
Qed.

(** The extraction on a model string that is not empty. *)
Lemma extract_model_name_nonempty (raw : string) :
  Py.truthy_str raw = true ->
  ModelModule._extract_model_name (model_snapshot raw) =
  if Py.contains "sonnet" (Py.lower raw) then "Sonnet"
  else if Py.contains "opus" (Py.lower raw) then "Opus"
  else if Py.contains "haiku" (Py.lower raw) then "Haiku"
  else if Py.contains "claude" (Py.lower raw) then
    ModelModule.version_loop (Py.split raw)
  else raw.
Proof.
  intros H. unfold ModelModule._extract_model_name, model_snapshot.
  cbn [model Py.get]. rewrite H. reflexivity.
Qed.

(** A string in which a word of at least one letter occurs is not empty. *)
Lemma contains_truthy (sub raw : string) :
  Py.truthy_str sub = true ->
  Py.contains sub (Py.lower raw) = true -> Py.truthy_str raw = true.
Proof.
  intros Hs H. destruct raw; [| reflexivity].
  destruct sub; [discriminate | discriminate H].
Qed.

(** C6: the families sonnet, opus, haiku are tried in this order on the
    lower-cased string and the first that occurs gives the name; with no
    family and with "claude" in it, the first white-space-delimited token
    that begins with a digit gives "Claude {token}"; with neither, the string
    is returned unchanged; the empty string gives the empty name and leaves
    the module unavailable. *)
Theorem extract_model_name_spec (raw : string) :
  let name := ModelModule._extract_model_name (model_snapshot raw) in
  let lowered := Py.lower raw in
  (Py.contains "sonnet" lowered = true -> name = "Sonnet") /\
  (Py.contains "sonnet" lowered = false ->
   Py.contains "opus" lowered = true -> name = "Opus") /\
  (Py.contains "sonnet" lowered = false ->
   Py.contains "opus" lowered = false ->
   Py.contains "haiku" lowered = true -> name = "Haiku") /\
  (Py.contains "sonnet" lowered = false ->
   Py.contains "opus" lowered = false ->
   Py.contains "haiku" lowered = false ->
   Py.contains "claude" lowered = true ->
   forall (pre post : list string) (v : string),
     Py.split raw = (pre ++ v :: post)%list ->
     Forall (fun w => begins_with_digit w = false) pre ->
     begins_with_digit v = true ->
     name = "Claude " ++ v) /\
  (Py.contains "sonnet" lowered = false ->
   Py.contains "opus" lowered = false ->
   Py.contains "haiku" lowered = false ->
   Py.contains "claude" lowered = false -> name = raw) /\
  (raw = "" ->
   name = "" /\
   ModelModule.is_available
     (ModelModule.set_context ModelModule.init (model_snapshot raw)) = false /\
   status (ModelModule.get_output
     (ModelModule.set_context ModelModule.init (model_snapshot raw))) = DISABLED).
Proof.
  intros name lowered. subst name lowered.
  split; [| split; [| split; [| split; [| split]]]].
  - intros Hs.
    rewrite extract_model_name_nonempty by (eapply contains_truthy; [| exact Hs]; reflexivity).
    rewrite Hs. reflexivity.
  - intros Hs Ho.
    rewrite extract_model_name_nonempty by (eapply contains_truthy; [| exact Ho]; reflexivity).
    rewrite Hs, Ho. reflexivity.
  - intros Hs Ho Hh.
    rewrite extract_model_name_nonempty by (eapply contains_truthy; [| exact Hh]; reflexivity).
    rewrite Hs, Ho, Hh. reflexivity.
  - intros Hs Ho Hh Hc pre post v Hsplit Hpre Hv.
    rewrite extract_model_name_nonempty by (eapply contains_truthy; [| exact Hc]; reflexivity).
    rewrite Hs, Ho, Hh, Hc, Hsplit.
    apply version_loop_first; assumption.
  - intros Hs Ho Hh Hc.
    destruct raw as [| c r]; [reflexivity |].
    rewrite extract_model_name_nonempty by reflexivity.
    rewrite Hs, Ho, Hh, Hc. reflexivity.
  - intros ->. repeat split; reflexivity.
Qed.

Lemma extract_model_name_spec_witness :
  ModelModule._extract_model_name (model_snapshot "claude-3-5-sonnet-20241022")
    = "Sonnet" /\
  ModelModule._extract_model_name (model_snapshot "claude-3-opus") = "Opus" /\
  ModelModule._extract_model_name (model_snapshot "Haiku 4 or Claude") = "Haiku" /\
  ModelModule._extract_model_name (model_snapshot "claude 3") = "Claude 3" /\
  ModelModule._extract_model_name (model_snapshot "gpt-4") = "gpt-4" /\
  ModelModule.is_available
    (ModelModule.set_context ModelModule.init (model_snapshot "")) = false.
Proof.
  split; [apply (extract_model_name_spec "claude-3-5-sonnet-20241022"); reflexivity |].
  split; [apply (extract_model_name_spec "claude-3-opus"); reflexivity |].
  split; [apply (extract_model_name_spec "Haiku 4 or Claude"); reflexivity |].
  split.
  { destruct (extract_model_name_spec "claude 3") as (_ & _ & _ & H & _).
    apply (H eq_refl eq_refl eq_refl eq_refl ["claude"] [] "3");
      [reflexivity | repeat constructor | reflexivity]. }
  split; [apply (extract_model_name_spec "gpt-4"); reflexivity |].
  apply (extract_model_name_spec ""); reflexivity.
Defined.

(** With "claude" in the string, no family and no token that begins with a
    digit, the name is "Claude". *)
Lemma extract_model_name_claude_only (raw : string) :
  Py.contains "sonnet" (Py.lower raw) = false ->
  Py.contains "opus" (Py.lower raw) = false ->
  Py.contains "haiku" (Py.lower raw) = false ->
  Py.contains "claude" (Py.lower raw) = true ->
  Forall (fun w => begins_with_digit w = false) (Py.split raw) ->
  ModelModule._extract_model_name (model_snapshot raw) = "Claude".
Proof.
  intros Hs Ho Hh Hc Hparts.
  rewrite extract_model_name_nonempty by (eapply contains_truthy; [| exact Hc]; reflexivity).
  rewrite Hs, Ho, Hh, Hc. apply version_loop_none. exact Hparts.
Qed.

(** A snapshot without the key [model] gives the empty name. *)
Lemma extract_model_name_missing (ctx : context) :
  model ctx = None -> ModelModule._extract_model_name ctx = "".
Proof.
  intros H. unfold ModelModule._extract_model_name. rewrite H. reflexivity.
Qed.

(** ** The bars *)

(** The filled count of the context bar, run on each whole percentage. *)
Lemma context_bar_filled_checked :
  forallb (fun p => Z.eqb (ContextBarModule.filled p)
                          (floor_filled ContextBarModule._bar_width p))
          whole_percentages = true.
Proof. vm_compute. reflexivity. Qed.

(** Every whole percentage of [0,100] is in the list. *)
Lemma whole_percentages_in (p : Z) : 0 <= p <= 100 -> In p whole_percentages.
Proof.
  intros H. unfold whole_percentages.
  rewrite <- (Z2Nat.id p) by lia. apply in_map. apply in_seq. lia.
Qed.

(** Dividing by 100 and multiplying by 10 in binary64 loses nothing at the
    whole percentages. *)
Lemma context_bar_filled (p : Z) :
  0 <= p <= 100 -> ContextBarModule.filled p = floor_filled 10 p.
Proof.
  intros H. apply Z.eqb_eq.
  exact (proj1 (forallb_forall _ _) context_bar_filled_checked p (whole_percentages_in p H)).
Qed.

(** The filled count of the specification lies within the width. *)
Lemma floor_filled_bounds (w p : Z) :
  0 <= w -> 0 <= p <= 100 -> 0 <= floor_filled w p <= w.
Proof.
  intros Hw Hp. unfold floor_filled. split.
  - apply Z.div_pos; nia.
  - apply Z.div_le_upper_bound; nia.
Qed.

(** The filled count of the block-usage bar. *)
Lemma block_bar_filled (q : Q) :
  (0 <= q)%Q -> (q <= 100)%Q ->
  BlockUsageModule.filled q = Qfloor (8 * q / 100) /\
  0 <= BlockUsageModule.filled q <= 8.
Proof.
  destruct q as [n d]. unfold Qle. cbn [Qnum Qden]. intros H0 H100.
  unfold BlockUsageModule.filled, BlockUsageModule.bar_width, Py.int_of_Q.
  unfold Qfloor, Qdiv, Qmult, Qinv, inject_Z. cbn [Qnum Qden].
  rewrite Z.quot_div_nonneg by lia.
  replace (Z.pos (1 * d * 100)) with (Z.pos (d * 100 * 1)) by lia.
  replace (8 * n * 1) with (n * 1 * 8) by lia.
  split; [reflexivity |]. split.
  - apply Z.div_pos; lia.
  - apply Z.div_le_upper_bound; lia.
Qed.

(** C7: the context bar has width 10 and the block-usage bar width 8; at
    every percentage in [0,100] the filled count is
    [floor(width * percentage / 100)], the filled and the empty glyphs add up
    to the width, and the bar is that many filled glyphs followed by the
    empty ones; the bar is full at 100 and empty at 0. *)
Theorem bar_rendering :
  ContextBarModule._bar_width = 10 /\
  BlockUsageModule.bar_width = 8 /\
  (forall p : Z, 0 <= p <= 100 ->
     ContextBarModule.filled p = floor_filled 10 p /\
     ContextBarModule.filled p + ContextBarModule.empty p = 10 /\
     0 <= ContextBarModule.filled p /\ 0 <= ContextBarModule.empty p /\
     ContextBarModule.bar p =
       Py.repeat_str "█" (Z.to_nat (floor_filled 10 p)) ++
       Py.repeat_str "░" (Z.to_nat (10 - floor_filled 10 p))) /\
  ContextBarModule.filled 100 = 10 /\
  ContextBarModule.filled 0 = 0 /\
  (forall q : Q, (0 <= q)%Q -> (q <= 100)%Q ->
     BlockUsageModule.filled q = Qfloor (8 * q / 100) /\
     BlockUsageModule.filled q + BlockUsageModule.empty q = 8 /\
     0 <= BlockUsageModule.filled q /\ 0 <= BlockUsageModule.empty q /\
     BlockUsageModule.bar q =
       Py.repeat_str "█" (Z.to_nat (Qfloor (8 * q / 100))) ++
       Py.repeat_str "░" (Z.to_nat (8 - Qfloor (8 * q / 100)))) /\
  BlockUsageModule.filled 100 = 8 /\
  BlockUsageModule.filled 0 = 0.
Proof.
  split; [reflexivity |]. split; [reflexivity |]. split.
  { intros p Hp.
    pose proof (context_bar_filled p Hp) as E.
    pose proof (floor_filled_bounds 10 p ltac:(lia) Hp) as B.
    unfold ContextBarModule.bar, ContextBarModule.empty, Py.str_mul,
      ContextBarModule._bar_width.
    rewrite E. repeat split; try reflexivity; lia. }
  split; [vm_compute; reflexivity |]. split; [vm_compute; reflexivity |]. split.
  { intros q H0 H100.
    destruct (block_bar_filled q H0 H100) as [E B].
    unfold BlockUsageModule.bar, BlockUsageModule.empty, Py.str_mul,
      BlockUsageModule.bar_width.
    rewrite <- E. repeat split; try reflexivity; lia. }
  split; vm_compute; reflexivity.
Qed.

Lemma bar_rendering_witness :
  ContextBarModule.filled 45 = 4 /\
  ContextBarModule.empty 45 = 6 /\
  BlockUsageModule.filled (125 # 10) = 1 /\
  BlockUsageModule.empty (125 # 10) = 7.
Proof.
  destruct bar_rendering as (_ & _ & Hc & _ & _ & Hb & _).
  destruct (Hc 45 ltac:(lia)) as (E1 & E2 & _).
  destruct (Hb (125 # 10) ltac:(unfold Qle; cbn; lia) ltac:(unfold Qle; cbn; lia))
    as (E3 & E4 & _).
  split; [exact E1 |].
  split; [unfold ContextBarModule.empty; rewrite E1; reflexivity |].
  split; [exact E3 |].
  unfold BlockUsageModule.empty. rewrite E3. reflexivity.
Defined.


(** ** The billing window *)

(** [Time.ltb] decides the strict order of the rationals. *)
Lemma time_ltb_lt (a b : Q) : Time.ltb a b = true <-> (a < b)%Q.
Proof.
  unfold Time.ltb. rewrite negb_true_iff.
  split.
  - intros H. apply Qnot_le_lt. intros L. apply Qle_bool_iff in L. congruence.
  - intros H. destruct (Qle_bool b a) eqn:E; [| reflexivity].
    apply Qle_bool_iff in E. exfalso. exact (Qlt_not_le _ _ H E).
Qed.

Lemma time_ltb_ge (a b : Q) : Time.ltb a b = false <-> (b <= a)%Q.
Proof.
  unfold Time.ltb. rewrite negb_false_iff. apply Qle_bool_iff.
Qed.

(** [min(p, 100.0)] is [p] up to 100 and 100 above. *)
Lemma time_min_cases (p : Q) :
  ((p <= 100)%Q /\ Time.min p 100 = p) \/ ((100 < p)%Q /\ Time.min p 100 = 100%Q).
Proof.
  unfold Time.min. destruct (Time.ltb 100 p) eqn:E.
  - right. split; [apply time_ltb_lt; exact E | reflexivity].
  - left. split; [apply time_ltb_ge; exact E | reflexivity].
Qed.

(** The share of the window, in percent, that [elapsed] microseconds are. *)
Lemma window_share (e : Z) :
  (Time.total_seconds e / Time.total_seconds (Time.of_hours BlockUsageModule._block_duration_hours) * 100
   == inject_Z e * 100 / inject_Z (Time.of_hours 5))%Q.
Proof.
  unfold Time.total_seconds, Time.of_hours, BlockUsageModule._block_duration_hours,
    Time.us_per_second.
  unfold Qeq, Qdiv, Qmult, Qinv, inject_Z. cbn. lia.
Qed.

(** The usage of a module that holds a block start. *)
Lemma calculate_usage_started (self : BlockUsageModule.t) (bs now : datetime) :
  BlockUsageModule._block_start self = Some bs ->
  (now < bs -> BlockUsageModule._calculate_usage self now = 0%Q) /\
  (bs <= now <= bs + Time.of_hours 5 ->
   (BlockUsageModule._calculate_usage self now
    == inject_Z (now - bs) * 100 / inject_Z (Time.of_hours 5))%Q) /\
  (bs + Time.of_hours 5 <= now ->
   (BlockUsageModule._calculate_usage self now == 100)%Q) /\
  (0 <= BlockUsageModule._calculate_usage self now)%Q /\
  (BlockUsageModule._calculate_usage self now <= 100)%Q.
Proof.
  intros Hs. unfold BlockUsageModule._calculate_usage. rewrite Hs.
  rewrite total_seconds_negative.
  set (p := (Time.total_seconds (now - bs)%Z /
             Time.total_seconds (Time.of_hours BlockUsageModule._block_duration_hours) * 100)%Q).
  assert (Ep : (p == inject_Z (now - bs) * 100 / inject_Z (Time.of_hours 5))%Q)
    by apply window_share.
  assert (Hp0 : 0 <= now - bs -> (0 <= p)%Q).
  { intros H. rewrite Ep. unfold Qle, Qdiv, Qmult, Qinv, inject_Z. cbn. lia. }
  assert (Hp100 : (p <= 100)%Q <-> now - bs <= Time.of_hours 5).
  { rewrite Ep. unfold Qle, Qdiv, Qmult, Qinv, inject_Z. cbn. lia. }
  destruct (Z.ltb_spec (now - bs) 0) as [Hneg | Hpos].
  - repeat split; intros; try reflexivity; try discriminate.
    + exfalso. lia.
    + exfalso. cbn in *. lia.
  - destruct (time_min_cases p) as [[Hle ->] | [Hgt ->]].
    + split; [intros; lia |]. split; [intros _; exact Ep |].
      split; [| split; [apply Hp0; lia | exact Hle]].
      intros Hw. apply Qle_antisym; [exact Hle |].
      rewrite Ep. unfold Qle, Qdiv, Qmult, Qinv, inject_Z. cbn in *. lia.
    + split; [intros; lia |].
      split; [| split; [reflexivity | split; [discriminate | apply Qle_refl]]].
      intros Hw. exfalso. apply (Qlt_not_le _ _ Hgt). apply Hp100. lia.
Qed.




(** ** MCP server discovery *)

(** One step of [strip_suffix]. *)
Lemma strip_suffix_unfold (suffix s : string) :
  MCPStatusModule.strip_suffix suffix s =
  if String.eqb s suffix then Some EmptyString
  else
    match s with
    | EmptyString => None
    | String c s' =>
        match MCPStatusModule.strip_suffix suffix s' with
        | Some p => Some (String c p)
        | None => None
        end
    end.
Proof. destruct s; reflexivity. Qed.

Lemma length_append (a b : string) :
  String.length (a ++ b) = (String.length a + String.length b)%nat.
Proof. induction a as [| c a IH]; cbn; [reflexivity | now rewrite IH]. Qed.

(** A string that ends with the suffix is stripped of it. *)
Lemma strip_suffix_append (suffix p : string) :
  MCPStatusModule.strip_suffix suffix (p ++ suffix) = Some p.
Proof.
  induction p as [| c p IH]; rewrite strip_suffix_unfold.
  - cbn [append]. rewrite String.eqb_refl. reflexivity.
  - destruct (String.eqb_spec (String c p ++ suffix) suffix) as [E | _].
    + apply (f_equal String.length) in E. rewrite length_append in E.
      cbn in E. lia.
    + cbn [append]. rewrite IH. reflexivity.
Qed.

(** What is stripped was there. *)
Lemma strip_suffix_sound (suffix s p : string) :
  MCPStatusModule.strip_suffix suffix s = Some p -> s = p ++ suffix.
Proof.
  revert p. induction s as [| c s IH]; intros p; rewrite strip_suffix_unfold.
  - destruct (String.eqb_spec EmptyString suffix) as [<- | _]; [| discriminate].
    intros [= <-]. reflexivity.
  - destruct (String.eqb_spec (String c s) suffix) as [<- | _].
    + intros [= <-]. reflexivity.
    + destruct (MCPStatusModule.strip_suffix suffix s) as [q |]; [| discriminate].
      intros [= <-]. cbn [append]. rewrite (IH q eq_refl). reflexivity.
Qed.

(** C9: discovery is a total function to the list of servers: a missing
    command, a timeout, a return code other than 0 and a configuration file
    that is not JSON give no server; when the command succeeds there is one
    server per non-empty output line, "running" for a line
    [<name> (running)] and "unknown", under the whole line as its name, for
    a line without the marker. *)
Theorem discovery_never_fails :
  MCPStatusModule._get_from_claude_command MCPStatusModule.FileNotFound = [] /\
  MCPStatusModule._get_from_claude_command MCPStatusModule.Timeout = [] /\
  (forall (returncode : Z) (stdout : string),
     returncode <> 0 ->
     MCPStatusModule._get_from_claude_command
       (MCPStatusModule.Completed returncode stdout) = []) /\
  MCPStatusModule._parse_mcp_config MCPStatusModule.JSONDecodeError = [] /\
  (forall stdout : string,
     MCPStatusModule._get_from_claude_command (MCPStatusModule.Completed 0 stdout) =
     map MCPStatusModule.parse_line (MCPStatusModule.nonempty_lines stdout)) /\
  (forall server : string,
     MCPStatusModule.parse_line (server ++ " (running)") =
     MCPStatusModule.mkServer server "running") /\
  (forall line : string,
     (forall server : string, line <> server ++ " (running)") ->
     MCPStatusModule.parse_line line = MCPStatusModule.mkServer line "unknown") /\
  MCPStatusModule._get_from_claude_command (MCPStatusModule.Completed 0 test_stdout) =
  [MCPStatusModule.mkServer "server1" "running";
   MCPStatusModule.mkServer "server2" "unknown";
   MCPStatusModule.mkServer "server3" "running"].
Proof.
  split; [reflexivity |]. split; [reflexivity |]. split.
  { intros rc out H. destruct rc; [contradiction | reflexivity | reflexivity]. }
  split; [reflexivity |]. split; [reflexivity |]. split.
  { intros server. unfold MCPStatusModule.parse_line, MCPStatusModule.running_marker.
    rewrite strip_suffix_append. reflexivity. }
  split; [| reflexivity].
  intros line H. unfold MCPStatusModule.parse_line.
  destruct (MCPStatusModule.strip_suffix MCPStatusModule.running_marker line)
    as [p |] eqn:E; [| reflexivity].
  apply strip_suffix_sound in E. exfalso. exact (H p E).
Qed.

Lemma discovery_never_fails_witness :
  MCPStatusModule._get_from_claude_command (MCPStatusModule.Completed 1 "boom") = [] /\
  MCPStatusModule.parse_line "server2" = MCPStatusModule.mkServer "server2" "unknown".
Proof.
  destruct discovery_never_fails as (_ & _ & Hrc & _ & _ & _ & Hu & _).
  split; [apply Hrc; discriminate |].
  apply Hu. intros server E.
  apply (f_equal String.length) in E. rewrite length_append in E. cbn in E. lia.
Defined.

(** ** The reset time *)

(** The next local midnight is after [now], at most a day away, and a
    midnight. *)
Lemma next_midnight_spec (now : datetime) :
  let next_midnight := Time.midnight now + Time.of_days 1 in
  now < next_midnight <= now + Time.of_days 1 /\
  next_midnight mod Time.us_per_day = 0.
Proof.
  unfold Time.midnight, Time.of_days.
  assert (Hd : 0 < Time.us_per_day) by reflexivity.
  pose proof (Z.mod_pos_bound now Time.us_per_day Hd) as Hb.
  split; [lia |].
  replace (now - now mod Time.us_per_day + 1 * Time.us_per_day)
    with ((now / Time.us_per_day + 1) * Time.us_per_day)
    by (pose proof (Z.div_mod now Time.us_per_day ltac:(lia)); lia).
  apply Z.mod_mul. lia.
Qed.

(** Without a truthy [next_reset_time], and when [fromtimestamp] raises
    [ValueError] or [TypeError], the reset time is the next local
    midnight. *)
Lemma extract_reset_time_fallback
      (fromtimestamp : Z -> outcome datetime) (ctx : context) (now : datetime) :
  let reset_timestamp := next_reset_time (Py.get (cost ctx) empty_cost) in
  Py.truthy_opt_int reset_timestamp = false \/
  fromtimestamp (Py.get reset_timestamp 0) = Raises ValueError \/
  fromtimestamp (Py.get reset_timestamp 0) = Raises TypeError ->
  ResetTimerModule._extract_reset_time fromtimestamp ctx now =
  Returns (Some (Time.midnight now + Time.of_days 1)).
Proof.
  intros ts H. unfold ResetTimerModule._extract_reset_time. fold ts.
  destruct (Py.truthy_opt_int ts); [| reflexivity].
  destruct H as [H | [H | H]]; [discriminate | |]; rewrite H; reflexivity.
Qed.

(** A call of [set_context] that returns leaves the module available, with
    a countdown to show at every later time. *)
Lemma reset_timer_available_after_return
      (fromtimestamp : Z -> outcome datetime) (self self' : ResetTimerModule.t)
      (ctx : context) (now now' : datetime) :
  ResetTimerModule.set_context fromtimestamp self ctx now = (self', None) ->
  ResetTimerModule.is_available self' = true /\
  status (ResetTimerModule.get_output self' now') <> DISABLED.
Proof.
  unfold ResetTimerModule.set_context, ResetTimerModule._extract_reset_time.
  assert (A : forall r : datetime,
             ResetTimerModule.is_available (ResetTimerModule.mk (Some r) ctx) = true /\
             status (ResetTimerModule.get_output (ResetTimerModule.mk (Some r) ctx) now')
               <> DISABLED).
  { intros r. split; [reflexivity |].
    unfold ResetTimerModule.get_output, ResetTimerModule._calculate_remaining.
    cbn [ResetTimerModule._reset_time].
    destruct (Time.ltb (Time.total_seconds (r - now')) 0).
    - destruct (Time.ltb _ 300); [discriminate |].
      destruct (Time.ltb _ 1800); discriminate.
    - destruct (Time.ltb _ 300); [discriminate |].
      destruct (Time.ltb _ 1800); discriminate. }
  destruct (Py.truthy_opt_int _).
  - destruct (fromtimestamp _) as [d | []]; intros [= <-]; apply A.
  - intros [= <-]. apply A.
Qed.

(** C10, at the snapshot [{"cost": {"next_reset_time": 10**30}}]: the
    timestamp is outside [time_t], [fromtimestamp] raises [OverflowError],
    which [except (ValueError, TypeError)] lets through; the exception
    leaves [set_context], no midnight is substituted and the module is
    still unavailable and DISABLED. *)
Theorem overflowing_timestamp_escapes (now : datetime) :
  let after := ResetTimerModule.set_context fromtimestamp_time_t
                 ResetTimerModule.init (reset_snapshot (10 ^ 30)) now in
  snd after = Some OverflowError /\
  ResetTimerModule._reset_time (fst after) = None /\
  ResetTimerModule.is_available (fst after) = false /\
  status (ResetTimerModule.get_output (fst after) now) = DISABLED.
Proof. repeat split; reflexivity. Qed.

(** * Further properties of [model.py] *)

(** ** The model module *)

(** Appending to a string that is not empty, or a string that is not empty,
    gives a string that is not empty. *)
Lemma truthy_append (a b : string) :
  Py.truthy_str (a ++ b) = Py.truthy_str a || Py.truthy_str b.
Proof. destruct a; [destruct b |]; reflexivity. Qed.

(** The version loop never returns the empty string. *)
Lemma version_loop_truthy (parts : list string) :
  Py.truthy_str (ModelModule.version_loop parts) = true.
Proof.
  induction parts as [| part rest IH]; [reflexivity |].
  cbn [ModelModule.version_loop].
  destruct part as [| c part]; [exact IH |].
  destruct (Py.isdigit c); [reflexivity | exact IH].
Qed.

(** The name extracted from a model string that is not empty is not
    empty. *)
Lemma extract_model_name_truthy (raw : string) :
  Py.truthy_str raw = true ->
  Py.truthy_str (ModelModule._extract_model_name (model_snapshot raw)) = true.
Proof.
  intros H. rewrite (extract_model_name_nonempty raw H).
  destruct (Py.contains "sonnet" _); [reflexivity |].
  destruct (Py.contains "opus" _); [reflexivity |].
  destruct (Py.contains "haiku" _); [reflexivity |].
  destruct (Py.contains "claude" _); [apply version_loop_truthy | exact H].
Qed.

(** The extraction reads the key [model] only. *)
Lemma extract_model_name_key (ctx : context) :
  ModelModule._extract_model_name ctx =
  ModelModule._extract_model_name (model_snapshot (Py.get (model ctx) "")).
Proof. unfold ModelModule._extract_model_name, model_snapshot. reflexivity. Qed.

(** X1: after [set_context] the model module is available exactly when the
    snapshot has a model string that is not empty; it then shows the
    extracted name, which is not empty, with status SUCCESS. *)
Theorem model_available_iff_named (self : ModelModule.t) (ctx : context) :
  let self' := ModelModule.set_context self ctx in
  ModelModule.is_available self' = Py.truthy_str (Py.get (model ctx) "") /\
  (Py.truthy_str (Py.get (model ctx) "") = true ->
   ModelModule.get_output self' =
   mkOutput (ModelModule._extract_model_name ctx) "🤖" "purple" SUCCESS /\
   Py.truthy_str (text (ModelModule.get_output self')) = true).
Proof.
  cbn zeta. unfold ModelModule.is_available, ModelModule.get_output,
    ModelModule.set_context. cbn [ModelModule._model].
  rewrite (extract_model_name_key ctx).
  destruct (Py.truthy_str (Py.get (model ctx) "")) eqn:E.
  - rewrite (extract_model_name_truthy _ E). cbn [negb text].
    rewrite (extract_model_name_truthy _ E). repeat split; reflexivity.
  - destruct (Py.get (model ctx) ""); [| discriminate].
    split; [reflexivity | discriminate].
Qed.

Lemma model_available_iff_named_witness :
  ModelModule.get_output (ModelModule.set_context ModelModule.init (model_snapshot "gpt-4"))
  = mkOutput "gpt-4" "🤖" "purple" SUCCESS.
Proof.
  apply (model_available_iff_named ModelModule.init (model_snapshot "gpt-4")).
  reflexivity.
Defined.

(** ** The parts of [split()] and the version loop *)

Lemma append_assoc (a b c : string) : (a ++ b) ++ c = a ++ (b ++ c).
Proof. induction a as [| x a IH]; cbn; [reflexivity | now rewrite IH]. Qed.

Lemma append_empty_r (a : string) : a ++ "" = a.
Proof. induction a as [| x a IH]; cbn; [reflexivity | now rewrite IH]. Qed.

Lemma has_space_append (a b : string) :
  has_space (a ++ b) = has_space a || has_space b.
Proof.
  induction a as [| x a IH]; cbn; [reflexivity |].
  rewrite IH. apply orb_assoc.
Qed.

(** Every part of [split()] is a word: not empty and free of white space;
    this holds with a word under construction as well. *)
Lemma split_from_words (s : string) :
  Forall (fun w => Py.truthy_str w = true /\ has_space w = false)
         (Py.split_from None s) /\
  (forall w0 : string,
     Py.truthy_str w0 = true -> has_space w0 = false ->
     Forall (fun w => Py.truthy_str w = true /\ has_space w = false)
            (Py.split_from (Some w0) s)).
Proof.
  induction s as [| c s [IHn IHs]].
  - split; [constructor |]. intros w0 H1 H2. repeat constructor; assumption.
  - cbn [Py.split_from]. destruct (Py.isspace c) eqn:Ec.
    + split; [exact IHn |]. intros w0 H1 H2.
      constructor; [split; assumption | exact IHn].
    + split.
      * apply IHs; [reflexivity |]. cbn. rewrite Ec. reflexivity.
      * intros w0 H1 H2. cbn [Py.get]. apply IHs.
        -- rewrite truthy_append, H1. reflexivity.
        -- rewrite has_space_append, H2. cbn. rewrite Ec. reflexivity.
Qed.

(** Every part of [split()] occurs in the string. *)
Lemma split_from_occurs (s : string) :
  Forall (fun w => occurs_in w s) (Py.split_from None s) /\
  (forall w0 : string,
     Forall (fun w => occurs_in w (w0 ++ s)) (Py.split_from (Some w0) s)).
Proof.
  induction s as [| c s [IHn IHs]].
  - split; [constructor |]. intros w0. repeat constructor.
    exists "", "". rewrite append_empty_r. reflexivity.
  - assert (Hn : Forall (fun w => occurs_in w (String c s)) (Py.split_from None s)).
    { eapply Forall_impl; [| exact IHn]. intros w (pre & post & ->).
      exists (String c pre), post. reflexivity. }
    cbn [Py.split_from]. destruct (Py.isspace c).
    + split; [exact Hn |]. intros w0. constructor.
      * exists "", (String c s). reflexivity.
      * eapply Forall_impl; [| exact Hn]. intros w (pre & post & E).
        exists (w0 ++ pre), post. rewrite E, append_assoc. reflexivity.
    + split.
      * exact (IHs (String c "")).
      * intros w0. cbn [Py.get].
        eapply Forall_impl; [| exact (IHs (w0 ++ String c ""))].
        intros w (pre & post & E). exists pre, post.
        rewrite <- E, append_assoc. reflexivity.
Qed.

(** The parts of [split()] are words of the string. *)
Lemma split_words (raw : string) :
  Forall (fun part => Py.truthy_str part = true /\
                      has_space part = false /\
                      occurs_in part raw)
         (Py.split raw).
Proof.
  unfold Py.split.
  pose proof (proj1 (split_from_words raw)) as Hw.
  pose proof (proj1 (split_from_occurs raw)) as Ho.
  induction (Py.split_from None raw) as [| part rest IH]; [constructor |].
  inversion Hw as [| ? ? [H1 H2] Hw']. inversion Ho as [| ? ? H3 Ho']. subst.
  constructor; [repeat split; assumption | apply IH; assumption].
Qed.

(** X2: for every model string, each part that the version loop looks at is
    not empty, so that [part[0]] is defined, has no white space in it, and
    is a piece of the model string. *)
Theorem split_parts_are_words (raw : string) :
  Forall (fun part => Py.truthy_str part = true /\
                      has_space part = false /\
                      occurs_in part raw)
         (Py.split raw).
Proof. exact (split_words raw). Qed.

(** ** Normalising twice *)

Lemma lower_append (a b : string) :
  Py.lower (a ++ b) = Py.lower a ++ Py.lower b.
Proof. induction a as [| x a IH]; cbn; [reflexivity | now rewrite IH]. Qed.

Lemma prefix_append (sub x post : string) :
  prefix sub x = true -> prefix sub (x ++ post) = true.
Proof.
  revert x. induction sub as [| a sub IH]; intros x H;
    [destruct (x ++ post); reflexivity |].
  destruct x as [| b x]; [discriminate |].
  cbn in H |- *. destruct (ascii_dec a b); [apply IH; exact H | discriminate].
Qed.

Lemma contains_append_r (sub x post : string) :
  Py.contains sub x = true -> Py.contains sub (x ++ post) = true.
Proof.
  induction x as [| b x IH]; intros H.
  - cbn in H. destruct sub; [| discriminate].
    destruct post; reflexivity.
  - cbn [Py.contains append] in H |- *.
    apply orb_true_iff in H. apply orb_true_iff. destruct H as [H | H].
    + left. exact (prefix_append sub (String b x) post H).
    + right. exact (IH H).
Qed.

Lemma contains_append_l (sub pre x : string) :
  Py.contains sub x = true -> Py.contains sub (pre ++ x) = true.
Proof.
  intros H. induction pre as [| b pre IH]; [exact H |].
  cbn [Py.contains append]. rewrite IH. apply orb_true_r.
Qed.

(** What occurs in a piece of a string occurs in the string. *)
Lemma contains_occurs (sub w s : string) :
  occurs_in w s ->
  Py.contains sub (Py.lower w) = true -> Py.contains sub (Py.lower s) = true.
Proof.
  intros (pre & post & ->) H.
  rewrite !lower_append. apply contains_append_l, contains_append_r. exact H.
Qed.

(** A word that follows a started word joins it. *)
Lemma split_from_word (v w0 : string) :
  has_space v = false -> Py.split_from (Some w0) v = [w0 ++ v].
Proof.
  revert w0. induction v as [| c v IH]; intros w0 H.
  - cbn. rewrite append_empty_r. reflexivity.
  - cbn in H. apply orb_false_iff in H. destruct H as [Hc Hv].
    cbn [Py.split_from Py.get]. rewrite Hc, (IH _ Hv), append_assoc. reflexivity.
Qed.

Lemma split_claude_word (v : string) :
  Py.truthy_str v = true -> has_space v = false ->
  Py.split ("Claude " ++ v) = ["Claude"; v].
Proof.
  intros Ht Hs. destruct v as [| c v]; [discriminate |].
  cbn in Hs. apply orb_false_iff in Hs. destruct Hs as [Hc Hv].
  unfold Py.split. cbn. rewrite Hc.
  rewrite (split_from_word v _ Hv). reflexivity.
Qed.

(** The version loop returns "Claude" or "Claude " and one of the parts that
    begin with a digit. *)
Lemma version_loop_cases (parts : list string) :
  ModelModule.version_loop parts = "Claude" \/
  exists v : string,
    In v parts /\ begins_with_digit v = true /\
    ModelModule.version_loop parts = "Claude " ++ v.
Proof.
  induction parts as [| part rest IH]; [left; reflexivity |].
  cbn [ModelModule.version_loop].
  assert (IH' : ModelModule.version_loop rest = "Claude" \/
                exists v : string,
                  In v (part :: rest) /\ begins_with_digit v = true /\
                  ModelModule.version_loop rest = "Claude " ++ v).
  { destruct IH as [E | (v & Hin & Hd & E)]; [left; exact E |].
    right. exists v. repeat split; [right; exact Hin | exact Hd | exact E]. }
  destruct part as [| c part]; [exact IH' |].
  destruct (Py.isdigit c) eqn:Ec; [| exact IH'].
  right. exists (String c part). repeat split; [left; reflexivity | exact Ec].
Qed.

(** The three families do not reach into the prefix "claude ". *)
Lemma contains_after_claude (s : string) :
  Py.contains "sonnet" ("claude " ++ s) = Py.contains "sonnet" s /\
  Py.contains "opus" ("claude " ++ s) = Py.contains "opus" s /\
  Py.contains "haiku" ("claude " ++ s) = Py.contains "haiku" s /\
  Py.contains "claude" ("claude " ++ s) = true.
Proof. repeat split; reflexivity. Qed.

(** X3: normalising a normalised name changes nothing: the extraction maps
    each of its results to itself. *)
Theorem extract_model_name_idempotent (raw : string) :
  let name := ModelModule._extract_model_name (model_snapshot raw) in
  ModelModule._extract_model_name (model_snapshot name) = name.
Proof.
  cbn zeta. destruct (Py.truthy_str raw) eqn:Ht;
    [| destruct raw; [reflexivity | discriminate]].
  rewrite (extract_model_name_nonempty raw Ht).
  destruct (Py.contains "sonnet" (Py.lower raw)) eqn:Es; [reflexivity |].
  destruct (Py.contains "opus" (Py.lower raw)) eqn:Eo; [reflexivity |].
  destruct (Py.contains "haiku" (Py.lower raw)) eqn:Eh; [reflexivity |].
  destruct (Py.contains "claude" (Py.lower raw)) eqn:Ec.
  - destruct (version_loop_cases (Py.split raw)) as [-> | (v & Hin & Hd & ->)];
      [reflexivity |].
    pose proof (split_words raw) as Hw.
    rewrite Forall_forall in Hw. destruct (Hw v Hin) as (Hvt & Hvs & Hvo).
    rewrite extract_model_name_nonempty by reflexivity.
    change (Py.lower ("Claude " ++ v)) with ("claude " ++ Py.lower v).
    destruct (contains_after_claude (Py.lower v)) as (-> & -> & -> & ->).
    assert (Fs : Py.contains "sonnet" (Py.lower v) = false).
    { destruct (Py.contains "sonnet" (Py.lower v)) eqn:E; [| reflexivity].
      rewrite (contains_occurs _ _ _ Hvo E) in Es. discriminate. }
    assert (Fo : Py.contains "opus" (Py.lower v) = false).
    { destruct (Py.contains "opus" (Py.lower v)) eqn:E; [| reflexivity].
      rewrite (contains_occurs _ _ _ Hvo E) in Eo. discriminate. }
    assert (Fh : Py.contains "haiku" (Py.lower v) = false).
    { destruct (Py.contains "haiku" (Py.lower v)) eqn:E; [| reflexivity].
      rewrite (contains_occurs _ _ _ Hvo E) in Eh. discriminate. }
    rewrite Fs, Fo, Fh, (split_claude_word v Hvt Hvs).
    apply (version_loop_first ["Claude"] [] v); [repeat constructor | exact Hd].
  - rewrite (extract_model_name_nonempty raw Ht), Es, Eo, Eh, Ec. reflexivity.
Qed.

(** ** The context modules between snapshots *)

(** X4: in every state a context module goes through, the stored percentage
    is the one computed from the stored snapshot, and [refresh] changes
    nothing. *)
Theorem context_refresh_stable :
  (forall self : ContextPercentModule.t,
     percent_reachable self ->
     ContextPercentModule._percentage self =
     ContextPercentModule._calculate_percentage (ContextPercentModule._context self) /\
     ContextPercentModule.refresh self = self) /\
  (forall self : ContextBarModule.t,
     bar_reachable self ->
     ContextBarModule._percentage self =
     ContextBarModule._calculate_percentage (ContextBarModule._context self) /\
     ContextBarModule.refresh self = self).
Proof.
  split.
  - assert (I : forall self, percent_reachable self ->
                ContextPercentModule._percentage self =
                ContextPercentModule._calculate_percentage
                  (ContextPercentModule._context self)).
    { intros self H. induction H; reflexivity. }
    intros self H. split; [exact (I self H) |].
    unfold ContextPercentModule.refresh. rewrite <- (I self H).
    destruct self; reflexivity.
  - assert (I : forall self, bar_reachable self ->
                ContextBarModule._percentage self =
                ContextBarModule._calculate_percentage
                  (ContextBarModule._context self)).
    { intros self H. induction H; reflexivity. }
    intros self H. split; [exact (I self H) |].
    unfold ContextBarModule.refresh. rewrite <- (I self H).
    destruct self; reflexivity.
Qed.

Lemma context_refresh_stable_witness :
  ContextPercentModule.refresh
    (ContextPercentModule.set_context ContextPercentModule.init (percentage_snapshot 75))
  = ContextPercentModule.set_context ContextPercentModule.init (percentage_snapshot 75) /\
  ContextBarModule.refresh
    (ContextBarModule.set_context ContextBarModule.init (percentage_snapshot 75))
  = ContextBarModule.set_context ContextBarModule.init (percentage_snapshot 75).
Proof.
  destruct context_refresh_stable as [Hp Hb]. split.
  - apply Hp. apply percent_set_context. apply percent_created.
  - apply Hb. apply bar_set_context. apply bar_created.
Defined.

(** ** The plan module *)

Lemma lower_char_idempotent (c : ascii) :
  Py.lower_char (Py.lower_char c) = Py.lower_char c.
Proof.
  destruct c as [[] [] [] [] [] [] [] []]; reflexivity.
Qed.

Lemma lower_idempotent (s : string) : Py.lower (Py.lower s) = Py.lower s.
Proof.
  induction s as [| c s IH]; cbn [Py.lower]; [reflexivity |].
  rewrite lower_char_idempotent, IH. reflexivity.
Qed.

Lemma truthy_lower (s : string) : Py.truthy_str (Py.lower s) = Py.truthy_str s.
Proof. destruct s; reflexivity. Qed.

(** X6: the plan module shows the plan as it was given, and the letter case
    of the plan has no effect on the status, the icon and the color. *)
Theorem plan_tier_ignores_case (p : string) (c1 c2 : context) :
  let o := PlanModule.get_output (PlanModule.mk p c1) in
  let o' := PlanModule.get_output (PlanModule.mk (Py.lower p) c2) in
  text o = p /\ status o = status o' /\ icon o = icon o' /\ color o = color o'.
Proof.
  cbn zeta. unfold PlanModule.get_output. cbn [PlanModule._plan].
  rewrite truthy_lower, lower_idempotent.
  destruct p as [| a p]; [repeat split; reflexivity |].
  cbn [Py.truthy_str negb].
  destruct (Py.contains "pro" _); [repeat split; reflexivity |].
  destruct (Py.contains "free" _); repeat split; reflexivity.
Qed.

(** ** The context bar outside [0,100] *)

Lemma context_bar_wide_checked :
  forallb (fun p => Z.eqb (ContextBarModule.filled p) (Z.quot (10 * p) 100))
          wide_percentages = true.
Proof. vm_compute. reflexivity. Qed.

Lemma wide_percentages_in (p : Z) : -1000 <= p <= 1000 -> In p wide_percentages.
Proof.
  intros H. unfold wide_percentages.
  replace p with (Z.of_nat (Z.to_nat (p + 1000)) - 1000) by lia.
  apply (in_map (fun n => Z.of_nat n - 1000)). apply in_seq. lia.
Qed.

(** X7: the percentage of the context bar is not clamped: for every whole
    percentage from -1000 to 1000 the filled count is [10 * p / 100]
    truncated toward zero and the empty count is 10 minus it, a negative
    count giving no glyph; so the bar has its ten glyphs exactly for
    [-10 < p < 110], and more outside. *)
Theorem context_bar_unclamped (p : Z) :
  -1000 <= p <= 1000 ->
  let f := Z.quot (10 * p) 100 in
  ContextBarModule.filled p = f /\
  ContextBarModule.bar p =
    Py.repeat_str "█" (Z.to_nat f) ++ Py.repeat_str "░" (Z.to_nat (10 - f)) /\
  ((Z.to_nat f + Z.to_nat (10 - f) = 10)%nat <-> -10 < p < 110) /\
  (10 <= Z.to_nat f + Z.to_nat (10 - f))%nat.
Proof.
  intros H f.
  assert (E : ContextBarModule.filled p = f).
  { apply Z.eqb_eq.
    exact (proj1 (forallb_forall _ _) context_bar_wide_checked p
                 (wide_percentages_in p H)). }
  split; [exact E |]. split.
  - unfold ContextBarModule.bar, ContextBarModule.empty, Py.str_mul,
      ContextBarModule._bar_width. rewrite E. reflexivity.
  - assert (Hq : f = Z.quot (10 * p) 100) by reflexivity.
    destruct (Z.le_gt_cases 0 p) as [Hp | Hp].
    + rewrite Z.quot_div_nonneg in Hq by lia.
      assert (0 <= f) by (rewrite Hq; apply Z.div_pos; lia).
      assert (f <= 10 <-> p < 110).
      { rewrite Hq. split; intros K.
        - apply Z.nle_gt. intros L.
          assert (11 <= 10 * p / 100) by (apply Z.div_le_lower_bound; lia). lia.
        - assert (10 * p / 100 < 11) by (apply Z.div_lt_upper_bound; lia). lia. }
      split; [split; lia | lia].
    + assert (Hn : f = - (10 * (- p) / 100)).
      { rewrite Hq. replace (10 * p) with (- (10 * - p)) by lia.
        rewrite Z.quot_opp_l by lia. rewrite Z.quot_div_nonneg by lia. reflexivity. }
      assert (0 <= 10 * (- p) / 100) by (apply Z.div_pos; lia).
      assert (10 * (- p) / 100 = 0 <-> -10 < p).
      { split; intros K.
        - apply Z.nle_gt. intros L.
          assert (1 <= 10 * - p / 100) by (apply Z.div_le_lower_bound; lia). lia.
        - apply Z.div_small. lia. }
      split; [split; lia | lia].
Qed.

Lemma context_bar_unclamped_witness :
  ContextBarModule.filled 250 = 25 /\ ContextBarModule.filled (-30) = -3.
Proof.
  split.
  - apply (context_bar_unclamped 250). lia.
  - apply (context_bar_unclamped (-30)). lia.
Defined.

(** * Further properties of [time_modules.py] *)

(** ** The countdown *)

(** The whole seconds of any duration, with its sign. *)
Lemma int_total_seconds_quot (d : timedelta) :
  Py.int_of_Q (Time.total_seconds d) = Z.quot d 1000000.
Proof. reflexivity. Qed.

(** X8: whatever the duration, negative ones included, the text of
    [_format_duration] is "{h}h {m}m" with [h > 0], or "{m}m {s}s" with
    [m > 0], or "{s}s", where the minutes and the seconds lie between 0 and
    59: it never shows a negative number. *)
Theorem format_duration_shape (d : timedelta) :
  exists h m s : Z,
    0 <= m < 60 /\ 0 <= s < 60 /\
    ((0 < h /\
      ResetTimerModule._format_duration d =
      Py.str_of_int h ++ "h " ++ Py.str_of_int m ++ "m") \/
     (0 < m /\
      ResetTimerModule._format_duration d =
      Py.str_of_int m ++ "m " ++ Py.str_of_int s ++ "s") \/
     ResetTimerModule._format_duration d = Py.str_of_int s ++ "s").
Proof.
  unfold ResetTimerModule._format_duration.
  set (total := Py.int_of_Q (Time.total_seconds d)).
  exists (total / 3600), (total mod 3600 / 60), (total mod 3600 mod 60).
  pose proof (Z.mod_pos_bound total 3600 ltac:(lia)) as Hr.
  pose proof (Z.mod_pos_bound (total mod 3600) 60 ltac:(lia)) as Hs.
  assert (Hm : 0 <= total mod 3600 / 60 < 60).
  { split; [apply Z.div_pos; lia | apply Z.div_lt_upper_bound; lia]. }
  split; [exact Hm |]. split; [exact Hs |].
  destruct (Z.ltb_spec 0 (total / 3600)); [left; split; [assumption | reflexivity] |].
  destruct (Z.ltb_spec 0 (total mod 3600 / 60));
    [right; left; split; [assumption | reflexivity] | right; right; reflexivity].
Qed.

(** The text of [_format_duration] is never empty. *)
Lemma format_duration_truthy (d : timedelta) :
  Py.truthy_str (ResetTimerModule._format_duration d) = true.
Proof.
  unfold ResetTimerModule._format_duration.
  destruct (Z.ltb 0 _); [| destruct (Z.ltb 0 _)];
    repeat rewrite truthy_append; cbn; repeat rewrite orb_true_r; reflexivity.
Qed.

(** The remaining time is the time to the reset, or zero after it. *)
Lemma calculate_remaining_max (self : ResetTimerModule.t) (reset now : datetime) :
  ResetTimerModule._reset_time self = Some reset ->
  ResetTimerModule._calculate_remaining self now = Some (Z.max 0 (reset - now)).
Proof.
  intros H. unfold ResetTimerModule._calculate_remaining.
  rewrite H, total_seconds_negative.
  destruct (Z.ltb_spec (reset - now) 0); f_equal; lia.
Qed.

(** The text of the reset timer is the formatted remaining time. *)
Lemma reset_timer_text (self : ResetTimerModule.t) (reset now : datetime) :
  ResetTimerModule._reset_time self = Some reset ->
  text (ResetTimerModule.get_output self now) =
  ResetTimerModule._format_duration (Z.max 0 (reset - now)).
Proof.
  intros H. unfold ResetTimerModule.get_output.
  rewrite (calculate_remaining_max self reset now H).
  destruct (Time.ltb _ 300); [| destruct (Time.ltb _ 1800)]; reflexivity.
Qed.

(** X9: with a reset time, the remaining time is [max(reset - now, 0)], and
    it never grows as the clock advances. *)
Theorem countdown_never_grows (self : ResetTimerModule.t) (reset now now' : datetime) :
  ResetTimerModule._reset_time self = Some reset ->
  now <= now' ->
  exists d d' : timedelta,
    ResetTimerModule._calculate_remaining self now = Some d /\
    ResetTimerModule._calculate_remaining self now' = Some d' /\
    d = Z.max 0 (reset - now) /\ 0 <= d' <= d.
Proof.
  intros H L. exists (Z.max 0 (reset - now)), (Z.max 0 (reset - now')).
  rewrite !(calculate_remaining_max self reset _ H).
  repeat split; lia.
Qed.

Lemma countdown_never_grows_witness :
  exists d d' : timedelta,
    ResetTimerModule._calculate_remaining
      (ResetTimerModule.mk (Some 90000000) empty_context) 30000000 = Some d /\
    ResetTimerModule._calculate_remaining
      (ResetTimerModule.mk (Some 90000000) empty_context) 95000000 = Some d' /\
    d = Z.max 0 (90000000 - 30000000) /\ 0 <= d' <= d.
Proof.
  apply (countdown_never_grows
           (ResetTimerModule.mk (Some 90000000) empty_context) 90000000);
    [reflexivity | lia].
Defined.

(** [total_seconds() < k] on whole seconds [k]. *)
Lemma total_seconds_ltb (d : timedelta) (k : Z) :
  Time.ltb (Time.total_seconds d) (inject_Z k) = Z.ltb d (k * 1000000).
Proof.
  unfold Time.ltb, Time.total_seconds, Qle_bool, inject_Z. cbn [Qnum Qden].
  destruct (Z.leb_spec (k * Z.pos 1000000) (d * 1)), (Z.ltb_spec d (k * 1000000));
    cbn [negb]; try reflexivity; lia.
Qed.

(** X10: the reset timer is red with status WARNING while less than five
    minutes remain, also after the reset time has passed; yellow with status
    SUCCESS from five minutes to less than thirty; green with status SUCCESS
    from thirty minutes on; its status is never ERROR. *)
Theorem reset_timer_tiers (self : ResetTimerModule.t) (reset now : datetime) :
  ResetTimerModule._reset_time self = Some reset ->
  let o := ResetTimerModule.get_output self now in
  (reset - now < 300 * 1000000 -> status o = WARNING /\ color o = "red") /\
  (300 * 1000000 <= reset - now < 1800 * 1000000 ->
   status o = SUCCESS /\ color o = "yellow") /\
  (1800 * 1000000 <= reset - now -> status o = SUCCESS /\ color o = "green") /\
  status o <> ERROR /\
  text o = ResetTimerModule._format_duration (Z.max 0 (reset - now)).
Proof.
  intros H. cbn zeta. unfold ResetTimerModule.get_output.
  rewrite (calculate_remaining_max self reset now H).
  change 300%Q with (inject_Z 300). change 1800%Q with (inject_Z 1800).
  rewrite !total_seconds_ltb.
  destruct (Z.ltb_spec (Z.max 0 (reset - now)) (300 * 1000000));
    [| destruct (Z.ltb_spec (Z.max 0 (reset - now)) (1800 * 1000000))];
    cbn [status color text];
    (split; [intros; try (split; reflexivity); lia |]);
    (split; [intros; try (split; reflexivity); lia |]);
    (split; [intros; try (split; reflexivity); lia |]);
    (split; [discriminate | reflexivity]).
Qed.

Lemma reset_timer_tiers_witness :
  status (ResetTimerModule.get_output
            (ResetTimerModule.mk (Some 0) empty_context) 5000000) = WARNING /\
  color (ResetTimerModule.get_output
           (ResetTimerModule.mk (Some 600000000) empty_context) 0) = "yellow" /\
  color (ResetTimerModule.get_output
           (ResetTimerModule.mk (Some 7200000000) empty_context) 0) = "green".
Proof.
  split; [| split].
  - apply (reset_timer_tiers (ResetTimerModule.mk (Some 0) empty_context) 0 5000000);
      [reflexivity | lia].
  - apply (reset_timer_tiers (ResetTimerModule.mk (Some 600000000) empty_context)
                             600000000 0); [reflexivity | lia].
  - apply (reset_timer_tiers (ResetTimerModule.mk (Some 7200000000) empty_context)
                             7200000000 0); [reflexivity | lia].
Defined.

(** X11: when the snapshot has no [next_reset_time], or has 0 there,
    [set_context] returns without an exception and the reset time is the
    next local midnight, whatever the module held before; the countdown
    shown at that moment is more than zero and at most a day. *)
Theorem reset_defaults_to_midnight
        (fromtimestamp : Z -> outcome datetime) (self : ResetTimerModule.t)
        (ctx : context) (now : datetime) :
  Py.truthy_opt_int (next_reset_time (Py.get (cost ctx) empty_cost)) = false ->
  ResetTimerModule.set_context fromtimestamp self ctx now =
    (ResetTimerModule.mk (Some (Time.midnight now + Time.of_days 1)) ctx, None) /\
  exists d : timedelta,
    ResetTimerModule._calculate_remaining
      (fst (ResetTimerModule.set_context fromtimestamp self ctx now)) now = Some d /\
    0 < d <= Time.of_days 1 /\
    text (ResetTimerModule.get_output
            (fst (ResetTimerModule.set_context fromtimestamp self ctx now)) now)
    = ResetTimerModule._format_duration d.
Proof.
  intros H.
  assert (E : ResetTimerModule.set_context fromtimestamp self ctx now =
              (ResetTimerModule.mk (Some (Time.midnight now + Time.of_days 1)) ctx, None)).
  { unfold ResetTimerModule.set_context.
    rewrite (extract_reset_time_fallback fromtimestamp ctx now (or_introl H)).
    reflexivity. }
  split; [exact E |]. rewrite E. cbn [fst].
  destruct (next_midnight_spec now) as [B _].
  exists (Time.midnight now + Time.of_days 1 - now).
  pose proof (calculate_remaining_max
                (ResetTimerModule.mk (Some (Time.midnight now + Time.of_days 1)) ctx)
                _ now eq_refl) as R.
  rewrite Z.max_r in R by lia.
  split; [exact R |]. split; [lia |].
  rewrite (reset_timer_text
             (ResetTimerModule.mk (Some (Time.midnight now + Time.of_days 1)) ctx)
             _ now eq_refl).
  rewrite Z.max_r by lia. reflexivity.
Qed.

Lemma reset_defaults_to_midnight_witness :
  ResetTimerModule.set_context fromtimestamp_time_t ResetTimerModule.init
    (reset_snapshot 0) 3600000000 =
  (ResetTimerModule.mk (Some 86400000000) (reset_snapshot 0), None).
Proof.
  apply (reset_defaults_to_midnight fromtimestamp_time_t ResetTimerModule.init
           (reset_snapshot 0) 3600000000).
  reflexivity.
Defined.

(** ** The billing window between snapshots *)

(** X12: [set_context] of the block-usage module replaces the block start
    only when the snapshot has a truthy [block_start_time]: with the key
    missing or 0 the module keeps the block start it held, and with it its
    availability and its usage; a timestamp that converts replaces it; one
    on which [fromtimestamp] raises [ValueError] or [TypeError] clears
    it. *)
Theorem block_start_between_snapshots
        (fromtimestamp : Z -> outcome datetime) (self : BlockUsageModule.t)
        (ctx : context) :
  let block_start := block_start_time (Py.get (cost ctx) empty_cost) in
  let after := BlockUsageModule.set_context fromtimestamp self ctx in
  (Py.truthy_opt_int block_start = false ->
   after = (BlockUsageModule.mk (BlockUsageModule._block_start self) ctx, None) /\
   BlockUsageModule.is_available (fst after) = BlockUsageModule.is_available self /\
   forall now : datetime,
     BlockUsageModule._calculate_usage (fst after) now =
     BlockUsageModule._calculate_usage self now) /\
  (forall (ts : Z) (d : datetime),
     block_start = Some ts -> ts <> 0 -> fromtimestamp ts = Returns d ->
     after = (BlockUsageModule.mk (Some d) ctx, None)) /\
  (forall ts : Z,
     block_start = Some ts -> ts <> 0 ->
     fromtimestamp ts = Raises ValueError \/ fromtimestamp ts = Raises TypeError ->
     after = (BlockUsageModule.mk None ctx, None) /\
     BlockUsageModule.is_available (fst after) = false).
Proof.
  cbn zeta. unfold BlockUsageModule.set_context.
  split; [| split].
  - intros H. rewrite H. repeat split.
  - intros ts d E Hts Hf. rewrite E. cbn [Py.truthy_opt_int Py.get].
    destruct (Z.eqb_spec ts 0); [contradiction |]. cbn [negb].
    rewrite Hf. reflexivity.
  - intros ts E Hts Hf. rewrite E. cbn [Py.truthy_opt_int Py.get].
    destruct (Z.eqb_spec ts 0); [contradiction |]. cbn [negb].
    destruct Hf as [Hf | Hf]; rewrite Hf; split; reflexivity.
Qed.

Lemma block_start_between_snapshots_witness :
  BlockUsageModule.set_context fromtimestamp_time_t
    (BlockUsageModule.mk (Some 7) empty_context) empty_context =
  (BlockUsageModule.mk (Some 7) empty_context, None) /\
  BlockUsageModule.set_context fromtimestamp_time_t BlockUsageModule.init
    (mkContext None None (Some (mkCost None None (Some 60))) None) =
  (BlockUsageModule.mk (Some 60000000)
     (mkContext None None (Some (mkCost None None (Some 60))) None), None) /\
  BlockUsageModule.set_context (fun _ => Raises ValueError)
    (BlockUsageModule.mk (Some 7) empty_context)
    (mkContext None None (Some (mkCost None None (Some 60))) None) =
  (BlockUsageModule.mk None
     (mkContext None None (Some (mkCost None None (Some 60))) None), None).
Proof.
  split; [| split].
  - apply (block_start_between_snapshots fromtimestamp_time_t
             (BlockUsageModule.mk (Some 7) empty_context) empty_context).
    reflexivity.
  - destruct (block_start_between_snapshots fromtimestamp_time_t BlockUsageModule.init
                (mkContext None None (Some (mkCost None None (Some 60))) None))
      as (_ & H & _).
    apply (H 60); [reflexivity | lia | reflexivity].
  - destruct (block_start_between_snapshots (fun _ => Raises ValueError)
                (BlockUsageModule.mk (Some 7) empty_context)
                (mkContext None None (Some (mkCost None None (Some 60))) None))
      as (_ & _ & H).
    apply (H 60); [reflexivity | lia | left; reflexivity].
Defined.

(** ** The billing window as time passes *)

(** The usage in terms of the elapsed microseconds. *)
Lemma usage_le_iff (self : BlockUsageModule.t) (bs now : datetime) (k : Z) :
  BlockUsageModule._block_start self = Some bs ->
  0 < k <= 100 ->
  (Qle_bool (inject_Z k) (BlockUsageModule._calculate_usage self now) = true <->
   k * 180000000 <= now - bs).
Proof.
  intros Hs Hk. rewrite Qle_bool_iff.
  destruct (calculate_usage_started self bs now Hs) as (H1 & H2 & H3 & _).
  destruct (Z.lt_ge_cases now bs) as [L | L].
  - rewrite (H1 L). unfold Qle, inject_Z. cbn. lia.
  - destruct (Z.le_gt_cases now (bs + Time.of_hours 5)) as [M | M].
    + rewrite (H2 (conj L M)).
      unfold Qle, Qdiv, Qmult, Qinv, inject_Z, Time.of_hours, Time.us_per_second in *.
      cbn. lia.
    + rewrite (H3 ltac:(lia)).
      unfold Qle, inject_Z, Time.of_hours, Time.us_per_second in *. cbn. lia.
Qed.

(** X13: with a block start, the block-usage module is red with status
    WARNING once four and a half hours of the window have elapsed, yellow
    with status SUCCESS from three and a half hours on, green with status
    SUCCESS before; its status is never ERROR. *)
Theorem block_usage_tiers (self : BlockUsageModule.t) (bs now : datetime) :
  BlockUsageModule._block_start self = Some bs ->
  let o := BlockUsageModule.get_output self now in
  (16200 * 1000000 <= now - bs -> status o = WARNING /\ color o = "red") /\
  (12600 * 1000000 <= now - bs < 16200 * 1000000 ->
   status o = SUCCESS /\ color o = "yellow") /\
  (now - bs < 12600 * 1000000 -> status o = SUCCESS /\ color o = "green") /\
  status o <> ERROR.
Proof.
  intros Hs. cbn zeta. unfold BlockUsageModule.get_output.
  rewrite Hs. cbn [BlockUsageModule.is_none]. rewrite andb_false_r.
  pose proof (usage_le_iff self bs now 90 Hs ltac:(lia)) as H90.
  pose proof (usage_le_iff self bs now 70 Hs ltac:(lia)) as H70.
  change (inject_Z 90) with 90%Q in H90. change (inject_Z 70) with 70%Q in H70.
  destruct (Qle_bool 90 (BlockUsageModule._calculate_usage self now)) eqn:E90.
  - assert (90 * 180000000 <= now - bs) by (apply H90; reflexivity).
    cbn [status color].
    repeat split; intros; try reflexivity; try discriminate; lia.
  - assert (~ 90 * 180000000 <= now - bs) by (intros K; apply H90 in K; discriminate).
    destruct (Qle_bool 70 (BlockUsageModule._calculate_usage self now)) eqn:E70.
    + assert (70 * 180000000 <= now - bs) by (apply H70; reflexivity).
      cbn [status color].
      repeat split; intros; try reflexivity; try discriminate; lia.
    + assert (~ 70 * 180000000 <= now - bs) by (intros K; apply H70 in K; discriminate).
      cbn [status color].
      repeat split; intros; try reflexivity; try discriminate; lia.
Qed.

Lemma block_usage_tiers_witness :
  color (BlockUsageModule.get_output
           (BlockUsageModule.mk (Some 0) empty_context) (Time.of_hours 1)) = "green" /\
  color (BlockUsageModule.get_output
           (BlockUsageModule.mk (Some 0) empty_context) (Time.of_hours 4)) = "yellow" /\
  status (BlockUsageModule.get_output
            (BlockUsageModule.mk (Some 0) empty_context) (Time.of_hours 6)) = WARNING.
Proof.
  split; [| split].
  - apply (block_usage_tiers (BlockUsageModule.mk (Some 0) empty_context) 0
                             (Time.of_hours 1)); [reflexivity | vm_compute; reflexivity].
  - apply (block_usage_tiers (BlockUsageModule.mk (Some 0) empty_context) 0
                             (Time.of_hours 4));
      [reflexivity | vm_compute; split; [discriminate | reflexivity]].
  - apply (block_usage_tiers (BlockUsageModule.mk (Some 0) empty_context) 0
                             (Time.of_hours 6)); [reflexivity | vm_compute; discriminate].
Defined.

(** X14: the usage never goes down as the clock advances. *)
Theorem block_usage_never_falls (self : BlockUsageModule.t) (now now' : datetime) :
  now <= now' ->
  (BlockUsageModule._calculate_usage self now
   <= BlockUsageModule._calculate_usage self now')%Q.
Proof.
  intros L.
  destruct (BlockUsageModule._block_start self) as [bs |] eqn:Hs.
  - destruct (calculate_usage_started self bs now Hs) as (A1 & A2 & A3 & A4 & A5).
    destruct (calculate_usage_started self bs now' Hs) as (B1 & B2 & B3 & B4 & B5).
    destruct (Z.lt_ge_cases now bs) as [K | K].
    + rewrite (A1 K). exact B4.
    + destruct (Z.le_gt_cases (bs + Time.of_hours 5) now') as [M | M].
      * rewrite (B3 M). exact A5.
      * rewrite (A2 ltac:(lia)), (B2 ltac:(lia)).
        unfold Qle, Qdiv, Qmult, Qinv, inject_Z, Time.of_hours, Time.us_per_second.
        cbn. lia.
  - unfold BlockUsageModule._calculate_usage. rewrite Hs. apply Qle_refl.
Qed.

Lemma block_usage_never_falls_witness :
  Qle (BlockUsageModule._calculate_usage
         (BlockUsageModule.mk (Some 0) empty_context) (Time.of_hours 1))
      (BlockUsageModule._calculate_usage
         (BlockUsageModule.mk (Some 0) empty_context) (Time.of_hours 2)).
Proof.
  apply block_usage_never_falls. vm_compute. discriminate.
Defined.

(** ** The bar of the billing window *)

(** The usage lies in [0,100] in every state and at every time. *)
Lemma calculate_usage_bounds (self : BlockUsageModule.t) (now : datetime) :
  (0 <= BlockUsageModule._calculate_usage self now)%Q /\
  (BlockUsageModule._calculate_usage self now <= 100)%Q.
Proof.
  destruct (BlockUsageModule._block_start self) as [bs |] eqn:Hs.
  - apply (calculate_usage_started self bs now Hs).
  - unfold BlockUsageModule._calculate_usage. rewrite Hs. split; discriminate.
Qed.

(** Rounding a percentage of [0,100] to a whole number stays in [0,100]. *)
Lemma round_half_even_bounds (q : Q) :
  (0 <= q)%Q -> (q <= 100)%Q -> 0 <= Py.round_half_even q <= 100.
Proof.
  intros H0 H100. unfold Py.round_half_even.
  pose proof (Qfloor_le q) as Hf.
  assert (F0 : 0 <= Qfloor q) by (apply (Qfloor_resp_le 0 q); exact H0).
  assert (F100 : Qfloor q <= 100) by (apply (Qfloor_resp_le q 100); exact H100).
  set (f := Qfloor q) in *.
  destruct (Qcompare (q - inject_Z f) (1 # 2)) eqn:E.
  - apply Qeq_alt in E. destruct (Z.even f); [lia |].
    split; [lia |].
    destruct q as [n d]. unfold Qeq, Qle, Qminus, Qplus, Qopp, inject_Z in *.
    cbn in *. nia.
  - lia.
  - apply Qgt_alt in E. split; [lia |].
    destruct q as [n d]. unfold Qlt, Qle, Qminus, Qplus, Qopp, inject_Z in *.
    cbn in *. nia.
Qed.

(** X15: in every state and at every time, the bar that the block-usage
    module renders for its usage has exactly eight glyphs, the filled ones
    first, and the percentage printed after it is a whole number between 0
    and 100. *)
Theorem block_bar_always_fits (self : BlockUsageModule.t) (now : datetime) :
  let usage := BlockUsageModule._calculate_usage self now in
  exists f : nat,
    (f <= 8)%nat /\
    BlockUsageModule.bar usage =
      Py.repeat_str "█" f ++ Py.repeat_str "░" (8 - f) /\
    BlockUsageModule._render_bar usage =
      "[" ++ BlockUsageModule.bar usage ++ "] " ++
      Py.str_of_int (Py.round_half_even usage) ++ "%" /\
    0 <= Py.round_half_even usage <= 100.
Proof.
  cbn zeta. destruct (calculate_usage_bounds self now) as [H0 H100].
  set (usage := BlockUsageModule._calculate_usage self now) in *.
  destruct (block_bar_filled usage H0 H100) as [_ [B0 B8]].
  exists (Z.to_nat (BlockUsageModule.filled usage)).
  split; [lia |]. split; [| split].
  - unfold BlockUsageModule.bar, BlockUsageModule.empty, Py.str_mul,
      BlockUsageModule.bar_width.
    f_equal. f_equal. lia.
  - unfold BlockUsageModule._render_bar, Py.format_f0.
    assert (N : Z.ltb (Qnum usage) 0 = false).
    { apply Z.ltb_ge. unfold Qle in H0. cbn in H0. lia. }
    rewrite N, andb_false_r. reflexivity.
  - exact (round_half_even_bounds usage H0 H100).
Qed.

(** * What an available module shows *)

(** X5: whenever [is_available()] is true, [get_output()] has a status other
    than DISABLED and a text that is not empty, in each of the six modules:
    what the availability check lets through is never dropped for being
    disabled or empty. *)
Theorem available_module_shows :
  (forall self : ModelModule.t,
     ModelModule.is_available self = true ->
     status (ModelModule.get_output self) <> DISABLED /\
     Py.truthy_str (text (ModelModule.get_output self)) = true) /\
  (forall self : PlanModule.t,
     PlanModule.is_available self = true ->
     status (PlanModule.get_output self) <> DISABLED /\
     Py.truthy_str (text (PlanModule.get_output self)) = true) /\
  (forall self : ContextPercentModule.t,
     ContextPercentModule.is_available self = true ->
     status (ContextPercentModule.get_output self) <> DISABLED /\
     Py.truthy_str (text (ContextPercentModule.get_output self)) = true) /\
  (forall self : ContextBarModule.t,
     ContextBarModule.is_available self = true ->
     status (ContextBarModule.get_output self) <> DISABLED /\
     Py.truthy_str (text (ContextBarModule.get_output self)) = true) /\
  (forall (self : ResetTimerModule.t) (now : datetime),
     ResetTimerModule.is_available self = true ->
     status (ResetTimerModule.get_output self now) <> DISABLED /\
     Py.truthy_str (text (ResetTimerModule.get_output self now)) = true) /\
  (forall (self : BlockUsageModule.t) (now : datetime),
     BlockUsageModule.is_available self = true ->
     status (BlockUsageModule.get_output self now) <> DISABLED /\
     Py.truthy_str (text (BlockUsageModule.get_output self now)) = true).
Proof.
  split; [| split; [| split; [| split; [| split]]]].
  - intros self H. unfold ModelModule.is_available in H.
    unfold ModelModule.get_output. rewrite H. cbn.
    split; [discriminate | exact H].
  - intros self H. unfold PlanModule.is_available in H.
    unfold PlanModule.get_output. rewrite H. cbn [negb].
    destruct (Py.contains "pro" _); [split; [discriminate | exact H] |].
    destruct (Py.contains "free" _); split; try discriminate; exact H.
  - intros self H. unfold ContextPercentModule.is_available in H.
    apply Z.ltb_lt in H. unfold ContextPercentModule.get_output.
    destruct (Z.eqb_spec (ContextPercentModule._percentage self) 0); [lia |].
    destruct (Z.leb _ _); [| destruct (Z.leb _ _)]; cbn [status text];
      (split; [discriminate |]); rewrite truthy_append; apply orb_true_r.
  - intros self H. unfold ContextBarModule.is_available in H.
    apply Z.ltb_lt in H. unfold ContextBarModule.get_output.
    destruct (Z.eqb_spec (ContextBarModule._percentage self) 0); [lia |].
    destruct (Z.leb _ _); [| destruct (Z.leb _ _)]; cbn [status text];
      (split; [discriminate | reflexivity]).
  - intros self now H. unfold ResetTimerModule.is_available in H.
    unfold ResetTimerModule.get_output, ResetTimerModule._calculate_remaining.
    destruct (ResetTimerModule._reset_time self) as [reset |]; [| discriminate].
    destruct (Time.ltb (Time.total_seconds (reset - now)) 0);
      (destruct (Time.ltb _ 300); [| destruct (Time.ltb _ 1800)]);
      cbn [status text]; (split; [discriminate | apply format_duration_truthy]).
  - intros self now H. unfold BlockUsageModule.is_available in H.
    unfold BlockUsageModule.get_output.
    destruct (BlockUsageModule._block_start self); [| discriminate].
    cbn [BlockUsageModule.is_none]. rewrite andb_false_r.
    destruct (Qle_bool 90 _); [| destruct (Qle_bool 70 _)]; cbn [status text];
      (split; [discriminate | reflexivity]).
Qed.

Lemma available_module_shows_witness :
  status (ContextPercentModule.get_output (ContextPercentModule.mk 42 empty_context))
    <> DISABLED /\
  Py.truthy_str
    (text (ResetTimerModule.get_output (ResetTimerModule.mk (Some 0) empty_context) 9))
    = true.
Proof.
  destruct available_module_shows as (_ & _ & Hp & _ & Hr & _). split.
  - apply (Hp (ContextPercentModule.mk 42 empty_context)). reflexivity.
  - apply (Hr (ResetTimerModule.mk (Some 0) empty_context) 9). reflexivity.
Defined.

(** * Registration *)

Section RegistryLaws.

Variable registry : Type.
Variable has_module : string -> registry -> bool.
Variable register : string -> Registration.module_class -> registry -> registry.
Variable enable : string -> registry -> registry.

(** What the proofs need of the registry: a registered name is known, and
    registering or enabling a name leaves the known names known. *)
Hypothesis register_known :
  forall name c r, has_module name (register name c r) = true.
Hypothesis register_keeps :
  forall name other c r,
    has_module other r = true -> has_module other (register name c r) = true.
Hypothesis enable_keeps :
  forall name other r,
    has_module other r = true -> has_module other (enable name r) = true.

(** The loop leaves the known names known. *)
Lemma register_loop_keeps (modules : list (string * Registration.module_class))
      (other : string) (r : registry) :
  has_module other r = true -> has_module other
    (Registration.register_loop registry has_module register enable modules r) = true.
Proof.
  revert r. induction modules as [| [name c] rest IH]; intros r H; [exact H |].
  cbn. destruct (has_module name r); cbn [negb]; apply IH;
    [exact H | apply enable_keeps, register_keeps; exact H].
Qed.

(** After the loop every name of the list is known. *)
Lemma register_loop_known (modules : list (string * Registration.module_class))
      (r : registry) :
  Forall (fun m => has_module (fst m)
                     (Registration.register_loop registry has_module register enable modules r) = true)
         modules.
Proof.
  revert r. induction modules as [| [name c] rest IH]; intros r; [constructor |].
  constructor.
  - cbn. destruct (has_module name r) eqn:E; cbn [negb];
      apply register_loop_keeps;
      [exact E | apply enable_keeps, register_known].
  - cbn. destruct (has_module name r); apply IH.
Qed.

(** On a registry that knows every name of the list the loop does nothing:
    it neither registers nor enables. *)
Lemma register_loop_skips (modules : list (string * Registration.module_class))
      (r : registry) :
  Forall (fun m => has_module (fst m) r = true) modules ->
  Registration.register_loop registry has_module register enable modules r = r.
Proof.
  intros H. induction H as [| [name c] rest Hn _ IH]; [reflexivity |].
  cbn in Hn |- *. rewrite Hn. exact IH.
Qed.

(** X16: [_register_modules] of either file does nothing to a registry that
    already knows its names (a module that was disabled stays disabled), and
    running it a second time changes nothing. *)
Theorem register_modules_idempotent (r : registry) :
  (Forall (fun m => has_module (fst m) r = true) Registration.model_modules ->
   Registration._register_modules_model registry has_module register enable r = r) /\
  (Forall (fun m => has_module (fst m) r = true) Registration.time_modules ->
   Registration._register_modules_time registry has_module register enable r = r) /\
  Registration._register_modules_model registry has_module register enable
    (Registration._register_modules_model registry has_module register enable r) =
  Registration._register_modules_model registry has_module register enable r /\
  Registration._register_modules_time registry has_module register enable
    (Registration._register_modules_time registry has_module register enable r) =
  Registration._register_modules_time registry has_module register enable r.
Proof.
  unfold Registration._register_modules_model, Registration._register_modules_time.
  split; [apply register_loop_skips |].
  split; [apply register_loop_skips |].
  split; apply register_loop_skips, register_loop_known.
Qed.

End RegistryLaws.

Lemma list_register_known (name : string) (c : Registration.module_class)
      (r : list_registry) :
  list_has_module name (list_register name c r) = true.
Proof.
  unfold list_has_module, list_register. cbn [fst].
  rewrite map_app, existsb_app. cbn. rewrite String.eqb_refl.
  apply orb_true_iff. right. reflexivity.
Qed.

Lemma list_register_keeps (name other : string) (c : Registration.module_class)
      (r : list_registry) :
  list_has_module other r = true ->
  list_has_module other (list_register name c r) = true.
Proof.
  unfold list_has_module, list_register. cbn [fst]. intros H.
  rewrite map_app, existsb_app, H. reflexivity.
Qed.

Lemma list_enable_keeps (name other : string) (r : list_registry) :
  list_has_module other r = true -> list_has_module other (list_enable name r) = true.
Proof.
  unfold list_has_module, list_enable. intros H.
  destruct (existsb (String.eqb name) (snd r)); exact H.
Qed.

Lemma register_modules_idempotent_witness :
  let run := Registration._register_modules_model list_registry list_has_module
               list_register list_enable in
  run (run ([], [])) = run ([], []) /\
  run ([("model", Registration.ModelModuleClass);
        ("plan", Registration.PlanModuleClass);
        ("context_pct", Registration.ContextPercentModuleClass);
        ("context_bar", Registration.ContextBarModuleClass)], ["plan"]) =
  ([("model", Registration.ModelModuleClass);
    ("plan", Registration.PlanModuleClass);
    ("context_pct", Registration.ContextPercentModuleClass);
    ("context_bar", Registration.ContextBarModuleClass)], ["plan"]).
Proof.
  cbn zeta. split.
  - apply (register_modules_idempotent list_registry list_has_module list_register
             list_enable list_register_known list_register_keeps list_enable_keeps
             ([], [])).
  - apply (register_modules_idempotent list_registry list_has_module list_register
             list_enable list_register_known list_register_keeps list_enable_keeps).
    repeat constructor.
Defined.

(** * Timestamps of the snapshot *)

(** X17: a truthy [next_reset_time] that [fromtimestamp] converts becomes
    the reset time, whatever the module held before, and the text shown from
    then on is the formatted time that remains to it. *)
Theorem reset_follows_timestamp
        (fromtimestamp : Z -> outcome datetime) (self : ResetTimerModule.t)
        (ctx : context) (ts : Z) (d now now' : datetime) :
  next_reset_time (Py.get (cost ctx) empty_cost) = Some ts ->
  ts <> 0 ->
  fromtimestamp ts = Returns d ->
  ResetTimerModule.set_context fromtimestamp self ctx now =
    (ResetTimerModule.mk (Some d) ctx, None) /\
  text (ResetTimerModule.get_output
          (fst (ResetTimerModule.set_context fromtimestamp self ctx now)) now')
  = ResetTimerModule._format_duration (Z.max 0 (d - now')).
Proof.
  intros E Hts Hf.
  assert (S : ResetTimerModule.set_context fromtimestamp self ctx now =
              (ResetTimerModule.mk (Some d) ctx, None)).
  { unfold ResetTimerModule.set_context, ResetTimerModule._extract_reset_time.
    rewrite E. cbn [Py.truthy_opt_int Py.get].
    destruct (Z.eqb_spec ts 0); [contradiction |]. cbn [negb].
    rewrite Hf. reflexivity. }
  split; [exact S |]. rewrite S. cbn [fst].
  apply (reset_timer_text (ResetTimerModule.mk (Some d) ctx) d now'). reflexivity.
Qed.

Lemma reset_follows_timestamp_witness :
  ResetTimerModule.set_context fromtimestamp_time_t ResetTimerModule.init
    (reset_snapshot 7200) 0 =
  (ResetTimerModule.mk (Some 7200000000) (reset_snapshot 7200), None) /\
  text (ResetTimerModule.get_output
          (fst (ResetTimerModule.set_context fromtimestamp_time_t ResetTimerModule.init
                  (reset_snapshot 7200) 0)) 1800000000)
  = ResetTimerModule._format_duration (Z.max 0 (7200000000 - 1800000000)).
Proof.
  apply (reset_follows_timestamp fromtimestamp_time_t ResetTimerModule.init
           (reset_snapshot 7200) 7200 7200000000 0 1800000000);
    [reflexivity | lia | reflexivity].
Defined.

(** X18: when [fromtimestamp] raises an exception other than [ValueError]
    and [TypeError] on a truthy timestamp, [set_context] of either time
    module passes it on; the snapshot is already stored, and the reset time
    or the block start, and with it the availability, is the one the module
    held before. *)
Theorem uncaught_exception_keeps_state
        (fromtimestamp : Z -> outcome datetime) (ctx : context) (ts : Z) (e : exn) :
  ts <> 0 ->
  e = OverflowError \/ e = OSError ->
  fromtimestamp ts = Raises e ->
  (forall (self : ResetTimerModule.t) (now : datetime),
     next_reset_time (Py.get (cost ctx) empty_cost) = Some ts ->
     ResetTimerModule.set_context fromtimestamp self ctx now =
       (ResetTimerModule.mk (ResetTimerModule._reset_time self) ctx, Some e) /\
     ResetTimerModule.is_available
       (fst (ResetTimerModule.set_context fromtimestamp self ctx now)) =
     ResetTimerModule.is_available self) /\
  (forall self : BlockUsageModule.t,
     block_start_time (Py.get (cost ctx) empty_cost) = Some ts ->
     BlockUsageModule.set_context fromtimestamp self ctx =
       (BlockUsageModule.mk (BlockUsageModule._block_start self) ctx, Some e) /\
     BlockUsageModule.is_available
       (fst (BlockUsageModule.set_context fromtimestamp self ctx)) =
     BlockUsageModule.is_available self).
Proof.
  intros Hts He Hf. split.
  - intros self now E.
    unfold ResetTimerModule.set_context, ResetTimerModule._extract_reset_time.
    rewrite E. cbn [Py.truthy_opt_int Py.get].
    destruct (Z.eqb_spec ts 0); [contradiction |]. cbn [negb].
    rewrite Hf. destruct He as [-> | ->]; split; reflexivity.
  - intros self E. unfold BlockUsageModule.set_context.
    rewrite E. cbn [Py.truthy_opt_int Py.get].
    destruct (Z.eqb_spec ts 0); [contradiction |]. cbn [negb].
    rewrite Hf. destruct He as [-> | ->]; split; reflexivity.
Qed.

Lemma uncaught_exception_keeps_state_witness :
  ResetTimerModule.set_context fromtimestamp_time_t
    (ResetTimerModule.mk (Some 5) empty_context) (reset_snapshot (2 ^ 63)) 0 =
  (ResetTimerModule.mk (Some 5) (reset_snapshot (2 ^ 63)), Some OverflowError).
Proof.
  destruct (uncaught_exception_keeps_state fromtimestamp_time_t
              (reset_snapshot (2 ^ 63)) (2 ^ 63) OverflowError)
    as [H _]; [lia | left; reflexivity | reflexivity |].
  apply (H (ResetTimerModule.mk (Some 5) empty_context) 0). reflexivity.
Defined.
